(** * TinyG arc planner ([firmware/tinyg/plan_arc.c]): model and properties

    The arc planner turns one G2/G3 arc command into a session of short
    line segments.  [cm_arc_feed] validates the command and computes the
    geometry ([_compute_arc], [_compute_arc_offsets_from_radius],
    [_get_arc_time], [_get_theta]); [cm_arc_callback] emits one segment per
    call from the main loop; [cm_abort_arc] drops the session.

    The C globals [arc], [gm], [gmx], [cm] and the planner queue are carried
    explicitly in a [World]; every function of the file is a function from
    the world before the call to the returned status and the world after. *)

From Stdlib Require Import Reals Lra Lia ZArith List Bool.
Import ListNotations.

Local Open Scope R_scope.

(** ** Arithmetic of the C [float] type

    A value is a NaN, an infinity or a real number.  The operations follow
    IEEE 754 on the special values (NaN propagates, [x/0] is an infinity,
    [0/0], [inf-inf], [0*inf] and the square root of a negative number are
    NaN, every comparison with NaN is false); on numbers they are the exact
    real operations: rounding and overflow are not modelled, and zero has
    no sign (it behaves as [+0]). *)

Inductive float : Type :=
| FNaN : float
| FInf (neg : bool) : float
| FNum (r : R) : float.

Definition Rltb (x y : R) : bool := if Rlt_dec x y then true else false.
Definition Reqb (x y : R) : bool := if Req_dec_T x y then true else false.

Definition isnan (a : float) : bool :=
  match a with FNaN => true | _ => false end.

Definition fneg (a : float) : float :=
  match a with
  | FNaN => FNaN
  | FInf s => FInf (negb s)
  | FNum r => FNum (- r)
  end.

Definition fabs (a : float) : float :=
  match a with
  | FNaN => FNaN
  | FInf _ => FInf false
  | FNum r => FNum (Rabs r)
  end.

Definition fadd (a b : float) : float :=
  match a, b with
  | FNaN, _ | _, FNaN => FNaN
  | FInf s, FInf s' => if Bool.eqb s s' then FInf s else FNaN
  | FInf s, FNum _ | FNum _, FInf s => FInf s
  | FNum x, FNum y => FNum (x + y)
  end.

Definition fsub (a b : float) : float := fadd a (fneg b).

Definition fmul (a b : float) : float :=
  match a, b with
  | FNaN, _ | _, FNaN => FNaN
  | FInf s, FInf s' => FInf (xorb s s')
  | FInf s, FNum r | FNum r, FInf s =>
      if Reqb r 0 then FNaN else FInf (xorb s (Rltb r 0))
  | FNum x, FNum y => FNum (x * y)
  end.

Definition fdiv (a b : float) : float :=
  match a, b with
  | FNaN, _ | _, FNaN => FNaN
  | FInf _, FInf _ => FNaN
  | FInf s, FNum y => FInf (xorb s (Rltb y 0))
  | FNum _, FInf _ => FNum 0
  | FNum x, FNum y =>
      if Reqb y 0
      then (if Reqb x 0 then FNaN else FInf (Rltb x 0))
      else FNum (x / y)
  end.

(** [a < b], [a > b], [a <= b] and [a == b] of C. *)
Definition flt (a b : float) : bool :=
  match a, b with
  | FNaN, _ | _, FNaN => false
  | FInf s, FInf s' => s && negb s'
  | FInf s, FNum _ => s
  | FNum _, FInf s' => negb s'
  | FNum x, FNum y => Rltb x y
  end.

Definition fgt (a b : float) : bool := flt b a.

Definition feq (a b : float) : bool :=
  match a, b with
  | FNaN, _ | _, FNaN => false
  | FInf s, FInf s' => Bool.eqb s s'
  | FInf _, FNum _ | FNum _, FInf _ => false
  | FNum x, FNum y => Reqb x y
  end.

Definition fle (a b : float) : bool := flt a b || feq a b.

(** The libm functions the file calls: [sqrt], [hypot], [atan], [sin],
    [cos], [floor] (C99 Annex F on the special values). *)
Definition fsqrt (a : float) : float :=
  match a with
  | FNaN => FNaN
  | FInf s => if s then FNaN else FInf false
  | FNum r => if Rltb r 0 then FNaN else FNum (sqrt r)
  end.

Definition hypot (a b : float) : float :=
  match a, b with
  | FInf _, _ | _, FInf _ => FInf false
  | FNaN, _ | _, FNaN => FNaN
  | FNum x, FNum y => FNum (sqrt (x * x + y * y))
  end.

Definition fatan (a : float) : float :=
  match a with
  | FNaN => FNaN
  | FInf s => if s then FNum (- (PI / 2)) else FNum (PI / 2)
  | FNum r => FNum (atan r)
  end.

Definition fsin (a : float) : float :=
  match a with
  | FNum r => FNum (sin r)
  | _ => FNaN
  end.

Definition fcos (a : float) : float :=
  match a with
  | FNum r => FNum (cos r)
  | _ => FNaN
  end.

Definition ffloor (a : float) : float :=
  match a with
  | FNum r => FNum (IZR (Int_part r))
  | _ => a
  end.

Definition M_PI : float := FNum PI.

(** [2*M_PI], as every use in the file writes it. *)
Definition two_pi : float := fmul (FNum 2) M_PI.

(** ** 32-bit signed integers ([int32_t segment_count]) *)

Definition wrap_int32 (z : Z) : Z :=
  ((z + 2147483648) mod 4294967296 - 2147483648)%Z.

(** The cast [(int32_t)f]: truncation toward zero.  C leaves the result
    undefined for NaN, infinities and values outside the range; the model
    gives 0 for the first two and wraps the last. *)
Definition int32_of_float (f : float) : Z :=
  match f with
  | FNum r => wrap_int32 (if Rltb r 0 then - Int_part (- r) else Int_part r)
  | _ => 0%Z
  end.

(** ** Data model *)

(** A C array of floats ([target[AXES]], [offset[3]], ...): a total map from
    the index to the cell. *)
Definition vec : Type := nat -> float.

Definition vset (v : vec) (i : nat) (x : float) : vec :=
  fun j => if Nat.eqb j i then x else v j.

(** Modelled from the spec: the axis numbers of [tinyg.h], which is not in
    the source tree.  The plane axes index the three cells of [offset[3]],
    so X, Y, Z are 0, 1, 2; A, B, C follow. *)
Definition AXIS_X : nat := 0.
Definition AXIS_Y : nat := 1.
Definition AXIS_Z : nat := 2.
Definition AXIS_A : nat := 3.
Definition AXIS_B : nat := 4.
Definition AXIS_C : nat := 5.

(** Modelled from the spec: [copy_axis_vector(dst, src)] of [util], not in
    the source tree; the destination becomes a snapshot of the source. *)
Definition copy_axis_vector (src : vec) : vec := src.

(** Modelled from the spec: the status codes of [tinyg.h], not in the
    source tree; the ones the file returns, and the soft limit error. *)
Inductive stat_t : Type :=
| STAT_OK
| STAT_EAGAIN
| STAT_NOOP
| STAT_GCODE_FEEDRATE_ERROR
| STAT_ARC_SPECIFICATION_ERROR
| STAT_FLOATING_POINT_ERROR
| STAT_MINIMUM_LENGTH_MOVE_ERROR
| STAT_SOFT_LIMIT_EXCEEDED.

(** Modelled from the spec: [run_state] is off (idle) or running; the
    enumeration is declared in [planner.h], not in the source tree. *)
Inductive moveState : Type :=
| MOVE_STATE_OFF
| MOVE_STATE_RUN.

(** Modelled from the spec: the plane selection XY, XZ or YZ
    ([canonical_machine.h], not in the source tree). *)
Inductive cmCanonicalPlane : Type :=
| CANON_PLANE_XY
| CANON_PLANE_XZ
| CANON_PLANE_YZ.

(** Modelled from the spec: [uint8_t motion_mode] is the clockwise arc
    mode, the counterclockwise arc mode, or any other code
    ([canonical_machine.h], not in the source tree). *)
Inductive cmMotionMode : Type :=
| MOTION_MODE_CW_ARC
| MOTION_MODE_CCW_ARC
| MOTION_MODE_OTHER (code : nat).

Definition is_ccw (m : cmMotionMode) : bool :=
  match m with MOTION_MODE_CCW_ARC => true | _ => false end.

Set Primitive Projections.

(** Modelled from the spec: [GCodeState_t] ([canonical_machine.h], not in
    the source tree), with the fields of [gm] and [arc.gm] that the file
    reads or writes and the work offsets. *)
Module GM.
Record t : Type := mk {
  target : vec;
  work_offset : vec;
  feed_rate : float;
  motion_mode : cmMotionMode;
  inverse_feed_rate_mode : bool;
  select_plane : cmCanonicalPlane;
  move_time : float
}.

Definition set_target (v : vec) (s : t) : t :=
  mk v (work_offset s) (feed_rate s) (motion_mode s) (inverse_feed_rate_mode s) (select_plane s) (move_time s).
Definition set_motion_mode (v : cmMotionMode) (s : t) : t :=
  mk (target s) (work_offset s) (feed_rate s) v (inverse_feed_rate_mode s) (select_plane s) (move_time s).
Definition set_move_time (v : float) (s : t) : t :=
  mk (target s) (work_offset s) (feed_rate s) (motion_mode s) (inverse_feed_rate_mode s) (select_plane s) v.
End GM.

(** Modelled from the spec: [GCodeStateX_t gmx], with the two fields the
    file reads. *)
Module GMX.
Record t : Type := mk {
  position : vec;
  inverse_feed_rate : float
}.
End GMX.

(** Modelled from the spec: [cm.a[axis]] and [cmSingleton_t cm], with the
    fields the file reads. *)
Module Axis.
Record t : Type := mk {
  feedrate_max : float
}.
End Axis.

Module CM.
Record t : Type := mk {
  a : nat -> Axis.t;
  arc_segment_len : float;
  chordal_tolerance : float
}.
End CM.

(** Modelled from the spec: [arc_t] of [plan_arc.h] (not in the source
    tree), the arc session, with every field the file names; the file
    names both [radius] and [arc_radius]. *)
Module Arc.
Record t : Type := mk {
  magic_start : Z;
  run_state : moveState;
  position : vec;
  offset : vec;
  length : float;
  time : float;
  theta : float;
  radius : float;
  arc_radius : float;
  angular_travel : float;
  linear_travel : float;
  plane_axis_0 : nat;
  plane_axis_1 : nat;
  plane_axis_2 : nat;
  segments : float;
  segment_count : Z;
  segment_theta : float;
  segment_linear_travel : float;
  center_0 : float;
  center_1 : float;
  gm : GM.t;
  magic_end : Z
}.

Definition set_magic_start (v : Z) (s : t) : t :=
  mk v (run_state s) (position s) (offset s) (length s) (time s) (theta s) (radius s) (arc_radius s) (angular_travel s) (linear_travel s) (plane_axis_0 s) (plane_axis_1 s) (plane_axis_2 s) (segments s) (segment_count s) (segment_theta s) (segment_linear_travel s) (center_0 s) (center_1 s) (gm s) (magic_end s).
Definition set_run_state (v : moveState) (s : t) : t :=
  mk (magic_start s) v (position s) (offset s) (length s) (time s) (theta s) (radius s) (arc_radius s) (angular_travel s) (linear_travel s) (plane_axis_0 s) (plane_axis_1 s) (plane_axis_2 s) (segments s) (segment_count s) (segment_theta s) (segment_linear_travel s) (center_0 s) (center_1 s) (gm s) (magic_end s).
Definition set_position (v : vec) (s : t) : t :=
  mk (magic_start s) (run_state s) v (offset s) (length s) (time s) (theta s) (radius s) (arc_radius s) (angular_travel s) (linear_travel s) (plane_axis_0 s) (plane_axis_1 s) (plane_axis_2 s) (segments s) (segment_count s) (segment_theta s) (segment_linear_travel s) (center_0 s) (center_1 s) (gm s) (magic_end s).
Definition set_offset (v : vec) (s : t) : t :=
  mk (magic_start s) (run_state s) (position s) v (length s) (time s) (theta s) (radius s) (arc_radius s) (angular_travel s) (linear_travel s) (plane_axis_0 s) (plane_axis_1 s) (plane_axis_2 s) (segments s) (segment_count s) (segment_theta s) (segment_linear_travel s) (center_0 s) (center_1 s) (gm s) (magic_end s).
Definition set_length (v : float) (s : t) : t :=
  mk (magic_start s) (run_state s) (position s) (offset s) v (time s) (theta s) (radius s) (arc_radius s) (angular_travel s) (linear_travel s) (plane_axis_0 s) (plane_axis_1 s) (plane_axis_2 s) (segments s) (segment_count s) (segment_theta s) (segment_linear_travel s) (center_0 s) (center_1 s) (gm s) (magic_end s).
Definition set_time (v : float) (s : t) : t :=
  mk (magic_start s) (run_state s) (position s) (offset s) (length s) v (theta s) (radius s) (arc_radius s) (angular_travel s) (linear_travel s) (plane_axis_0 s) (plane_axis_1 s) (plane_axis_2 s) (segments s) (segment_count s) (segment_theta s) (segment_linear_travel s) (center_0 s) (center_1 s) (gm s) (magic_end s).
Definition set_theta (v : float) (s : t) : t :=
  mk (magic_start s) (run_state s) (position s) (offset s) (length s) (time s) v (radius s) (arc_radius s) (angular_travel s) (linear_travel s) (plane_axis_0 s) (plane_axis_1 s) (plane_axis_2 s) (segments s) (segment_count s) (segment_theta s) (segment_linear_travel s) (center_0 s) (center_1 s) (gm s) (magic_end s).
Definition set_radius (v : float) (s : t) : t :=
  mk (magic_start s) (run_state s) (position s) (offset s) (length s) (time s) (theta s) v (arc_radius s) (angular_travel s) (linear_travel s) (plane_axis_0 s) (plane_axis_1 s) (plane_axis_2 s) (segments s) (segment_count s) (segment_theta s) (segment_linear_travel s) (center_0 s) (center_1 s) (gm s) (magic_end s).
Definition set_angular_travel (v : float) (s : t) : t :=
  mk (magic_start s) (run_state s) (position s) (offset s) (length s) (time s) (theta s) (radius s) (arc_radius s) v (linear_travel s) (plane_axis_0 s) (plane_axis_1 s) (plane_axis_2 s) (segments s) (segment_count s) (segment_theta s) (segment_linear_travel s) (center_0 s) (center_1 s) (gm s) (magic_end s).
Definition set_linear_travel (v : float) (s : t) : t :=
  mk (magic_start s) (run_state s) (position s) (offset s) (length s) (time s) (theta s) (radius s) (arc_radius s) (angular_travel s) v (plane_axis_0 s) (plane_axis_1 s) (plane_axis_2 s) (segments s) (segment_count s) (segment_theta s) (segment_linear_travel s) (center_0 s) (center_1 s) (gm s) (magic_end s).
Definition set_plane_axis_0 (v : nat) (s : t) : t :=
  mk (magic_start s) (run_state s) (position s) (offset s) (length s) (time s) (theta s) (radius s) (arc_radius s) (angular_travel s) (linear_travel s) v (plane_axis_1 s) (plane_axis_2 s) (segments s) (segment_count s) (segment_theta s) (segment_linear_travel s) (center_0 s) (center_1 s) (gm s) (magic_end s).
Definition set_plane_axis_1 (v : nat) (s : t) : t :=
  mk (magic_start s) (run_state s) (position s) (offset s) (length s) (time s) (theta s) (radius s) (arc_radius s) (angular_travel s) (linear_travel s) (plane_axis_0 s) v (plane_axis_2 s) (segments s) (segment_count s) (segment_theta s) (segment_linear_travel s) (center_0 s) (center_1 s) (gm s) (magic_end s).
Definition set_plane_axis_2 (v : nat) (s : t) : t :=
  mk (magic_start s) (run_state s) (position s) (offset s) (length s) (time s) (theta s) (radius s) (arc_radius s) (angular_travel s) (linear_travel s) (plane_axis_0 s) (plane_axis_1 s) v (segments s) (segment_count s) (segment_theta s) (segment_linear_travel s) (center_0 s) (center_1 s) (gm s) (magic_end s).
Definition set_segments (v : float) (s : t) : t :=
  mk (magic_start s) (run_state s) (position s) (offset s) (length s) (time s) (theta s) (radius s) (arc_radius s) (angular_travel s) (linear_travel s) (plane_axis_0 s) (plane_axis_1 s) (plane_axis_2 s) v (segment_count s) (segment_theta s) (segment_linear_travel s) (center_0 s) (center_1 s) (gm s) (magic_end s).
Definition set_segment_count (v : Z) (s : t) : t :=
  mk (magic_start s) (run_state s) (position s) (offset s) (length s) (time s) (theta s) (radius s) (arc_radius s) (angular_travel s) (linear_travel s) (plane_axis_0 s) (plane_axis_1 s) (plane_axis_2 s) (segments s) v (segment_theta s) (segment_linear_travel s) (center_0 s) (center_1 s) (gm s) (magic_end s).
Definition set_segment_theta (v : float) (s : t) : t :=
  mk (magic_start s) (run_state s) (position s) (offset s) (length s) (time s) (theta s) (radius s) (arc_radius s) (angular_travel s) (linear_travel s) (plane_axis_0 s) (plane_axis_1 s) (plane_axis_2 s) (segments s) (segment_count s) v (segment_linear_travel s) (center_0 s) (center_1 s) (gm s) (magic_end s).
Definition set_segment_linear_travel (v : float) (s : t) : t :=
  mk (magic_start s) (run_state s) (position s) (offset s) (length s) (time s) (theta s) (radius s) (arc_radius s) (angular_travel s) (linear_travel s) (plane_axis_0 s) (plane_axis_1 s) (plane_axis_2 s) (segments s) (segment_count s) (segment_theta s) v (center_0 s) (center_1 s) (gm s) (magic_end s).
Definition set_center_0 (v : float) (s : t) : t :=
  mk (magic_start s) (run_state s) (position s) (offset s) (length s) (time s) (theta s) (radius s) (arc_radius s) (angular_travel s) (linear_travel s) (plane_axis_0 s) (plane_axis_1 s) (plane_axis_2 s) (segments s) (segment_count s) (segment_theta s) (segment_linear_travel s) v (center_1 s) (gm s) (magic_end s).
Definition set_center_1 (v : float) (s : t) : t :=
  mk (magic_start s) (run_state s) (position s) (offset s) (length s) (time s) (theta s) (radius s) (arc_radius s) (angular_travel s) (linear_travel s) (plane_axis_0 s) (plane_axis_1 s) (plane_axis_2 s) (segments s) (segment_count s) (segment_theta s) (segment_linear_travel s) (center_0 s) v (gm s) (magic_end s).
Definition set_gm (v : GM.t) (s : t) : t :=
  mk (magic_start s) (run_state s) (position s) (offset s) (length s) (time s) (theta s) (radius s) (arc_radius s) (angular_travel s) (linear_travel s) (plane_axis_0 s) (plane_axis_1 s) (plane_axis_2 s) (segments s) (segment_count s) (segment_theta s) (segment_linear_travel s) (center_0 s) (center_1 s) v (magic_end s).
Definition set_magic_end (v : Z) (s : t) : t :=
  mk (magic_start s) (run_state s) (position s) (offset s) (length s) (time s) (theta s) (radius s) (arc_radius s) (angular_travel s) (linear_travel s) (plane_axis_0 s) (plane_axis_1 s) (plane_axis_2 s) (segments s) (segment_count s) (segment_theta s) (segment_linear_travel s) (center_0 s) (center_1 s) (gm s) v.
End Arc.

(** Everything but [arc]: the G-code model, the machine configuration and
    the state [mb] of the line planner, which the file never looks into. *)
Record Machine (Planner : Type) : Type := mkMachine {
  gm : GM.t;
  gmx : GMX.t;
  cm : CM.t;
  mb : Planner
}.
Arguments mkMachine {Planner}.
Arguments gm {Planner}.
Arguments gmx {Planner}.
Arguments cm {Planner}.
Arguments mb {Planner}.

Definition set_gm {Planner} (v : GM.t) (m : Machine Planner) : Machine Planner :=
  mkMachine v (gmx m) (cm m) (mb m).

Record World (Planner : Type) : Type := mkWorld {
  arc : Arc.t;
  mach : Machine Planner
}.
Arguments mkWorld {Planner}.
Arguments arc {Planner}.
Arguments mach {Planner}.

Unset Primitive Projections.

Definition set_arc {Planner} (v : Arc.t) (w : World Planner) : World Planner :=
  mkWorld v (mach w).
Definition set_mach {Planner} (v : Machine Planner) (w : World Planner) : World Planner :=
  mkWorld (arc w) v.

(** The functions, macros and constants of the other modules that
    [plan_arc.c] calls ([canonical_machine.c], [planner.c], [tinyg.h],
    [planner.h]).  They act on the machine, never on [arc]. *)
Class Collaborators (Planner : Type) : Type := {
  cm_set_model_target : vec -> vec -> Machine Planner -> Machine Planner;
  cm_set_work_offsets : Machine Planner -> Machine Planner;
  cm_test_soft_limits : vec -> Machine Planner -> stat_t;
  cm_cycle_start : Machine Planner -> Machine Planner;
  cm_conditional_set_model_position : stat_t -> Machine Planner -> Machine Planner;
  _to_millimeters : Machine Planner -> float -> float;
  mp_get_planner_buffers_available : Machine Planner -> Z;
  mp_aline : GM.t -> Machine Planner -> Machine Planner;
  MICROSECONDS_PER_MINUTE : float;
  MIN_ARC_SEGMENT_USEC : float;
  PLANNER_BUFFER_HEADROOM : Z;
  MAGICNUM : Z
}.

(** ** Macros and helpers of [util.h] / [util.c] *)

(** Modelled from the spec: [fp_ZERO] and [fp_NOT_ZERO] of [util.h], which
    is not in the source tree; the spec reads them as tests for zero
    ("exactly zero", "nonzero"). *)
Definition fp_ZERO (x : float) : bool := feq x (FNum 0).
Definition fp_NOT_ZERO (x : float) : bool := negb (feq x (FNum 0)).

(** Modelled from the spec: [square] of [util.h], not in the source tree. *)
Definition square (x : float) : float := fmul x x.

(** Modelled from the spec: [min3] and [max] of [util], not in the source
    tree; "the minimum of the three" and "clamped to at least". *)
Definition min3 (x1 x2 x3 : float) : float :=
  let min := if flt x2 x1 then x2 else x1 in
  if flt x3 min then x3 else min.

Definition fmax (x y : float) : float := if fgt x y then x else y.

(** Modelled from the spec: the [ritorno] macro of [tinyg.h], not in the
    source tree: a status other than [STAT_OK] is returned at once. *)
Definition ritorno {W : Type} (r : stat_t * W) (k : W -> stat_t * W) : stat_t * W :=
  match fst r with
  | STAT_OK => k (snd r)
  | _ => r
  end.

(** ** The functions of [plan_arc.c] *)

Section PlanArc.

Context {Planner : Type} {E : Collaborators Planner}.

Local Abbreviation world := (World Planner).

(** [cm_arc_init()]. *)
Definition cm_arc_init (w : world) : world :=
  set_arc (Arc.set_magic_end MAGICNUM (Arc.set_magic_start MAGICNUM (arc w))) w.

(** [_get_theta(x, y)]: angle of deviance from the positive y axis. *)
Definition _get_theta (x y : float) : float :=
  let theta := fatan (fdiv x (fabs y)) in
  if fgt y (FNum 0) then theta
  else if fgt theta (FNum 0) then fsub M_PI theta
  else fsub (fneg M_PI) theta.

(** [_get_arc_time(linear_travel, angular_travel, radius)]. *)
Definition _get_arc_time (w : world)
    (linear_travel angular_travel radius : float) : float :=
  let a := arc w in
  let m := mach w in
  let planar_travel := fabs (fmul angular_travel radius) in
  let move_time :=
    if GM.inverse_feed_rate_mode (gm m)
    then GMX.inverse_feed_rate (gmx m)
    else fdiv (fsqrt (fadd (square planar_travel) (square linear_travel)))
              (GM.feed_rate (gm m)) in
  let tmp := fdiv planar_travel (Axis.feedrate_max (CM.a (cm m) (Arc.plane_axis_0 a))) in
  let move_time := if fgt tmp move_time then tmp else move_time in
  let tmp := fdiv planar_travel (Axis.feedrate_max (CM.a (cm m) (Arc.plane_axis_1 a))) in
  let move_time := if fgt tmp move_time then tmp else move_time in
  let tmp := fabs (fdiv linear_travel (Axis.feedrate_max (CM.a (cm m) (Arc.plane_axis_2 a)))) in
  let move_time := if fgt tmp move_time then tmp else move_time in
  move_time.

(** [_compute_arc_offsets_from_radius()]. *)
Definition _compute_arc_offsets_from_radius (w : world) : stat_t * world :=
  let a := arc w in
  let m := mach w in
  let x := fsub (GM.target (gm m) (Arc.plane_axis_0 a))
                (GMX.position (gmx m) (Arc.plane_axis_0 a)) in
  let y := fsub (GM.target (gm m) (Arc.plane_axis_1 a))
                (GMX.position (gmx m) (Arc.plane_axis_1 a)) in
  let h_x2_div_d :=
    fdiv (fneg (fsqrt (fsub (fmul (FNum 4) (square (Arc.arc_radius a)))
                            (fsub (square x) (square y)))))
         (hypot x y) in
  if isnan h_x2_div_d then (STAT_FLOATING_POINT_ERROR, w)
  else
    let h_x2_div_d :=
      if is_ccw (GM.motion_mode (gm m)) then fneg h_x2_div_d else h_x2_div_d in
    let h_x2_div_d :=
      if flt (Arc.arc_radius a) (FNum 0) then fneg h_x2_div_d else h_x2_div_d in
    let a := Arc.set_offset (vset (Arc.offset a) (Arc.plane_axis_0 a)
               (fdiv (fsub x (fmul y h_x2_div_d)) (FNum 2))) a in
    let a := Arc.set_offset (vset (Arc.offset a) (Arc.plane_axis_1 a)
               (fdiv (fadd y (fmul x h_x2_div_d)) (FNum 2))) a in
    let a := Arc.set_offset (vset (Arc.offset a) (Arc.plane_axis_2 a) (FNum 0)) a in
    (STAT_OK, set_arc a w).

(** *** The blocks of [_compute_arc] *)

(** Line 195: "Calculate the theta (angle) of the current point". *)
Definition arc_start_theta (a : Arc.t) : float :=
  _get_theta (fneg (Arc.offset a (Arc.plane_axis_0 a)))
             (fneg (Arc.offset a (Arc.plane_axis_1 a))).

(** Lines 199-201: "calculate the theta (angle) of the target point". *)
Definition arc_end_theta (a : Arc.t) : float :=
  _get_theta
    (fsub (fsub (GM.target (Arc.gm a) (Arc.plane_axis_0 a))
                (Arc.offset a (Arc.plane_axis_0 a)))
          (Arc.position a (Arc.plane_axis_0 a)))
    (fsub (fsub (GM.target (Arc.gm a) (Arc.plane_axis_1 a))
                (Arc.offset a (Arc.plane_axis_1 a)))
          (Arc.position a (Arc.plane_axis_1 a))).

(** Lines 205-220: "ensure that the difference is positive" and "compute
    angular travel and invert if gcode wants a counterclockwise arc". *)
Definition arc_travel_block (mode : cmMotionMode) (theta_end : float)
    (a : Arc.t) : Arc.t :=
  let theta_end :=
    if flt theta_end (Arc.theta a) then fadd theta_end two_pi else theta_end in
  let a := Arc.set_angular_travel (fsub theta_end (Arc.theta a)) a in
  if fp_ZERO (Arc.angular_travel a) then
    if is_ccw mode
    then Arc.set_angular_travel (fsub (Arc.angular_travel a) two_pi) a
    else Arc.set_angular_travel two_pi a
  else
    if is_ccw mode
    then Arc.set_angular_travel (fsub (Arc.angular_travel a) two_pi) a
    else a.

(** Lines 224-228: "Find the radius, calculate travel in the depth axis of
    the helix" and "length is the total mm of travel of the helix". *)
Definition arc_length_block (a : Arc.t) : Arc.t :=
  let a := Arc.set_radius (hypot (Arc.offset a (Arc.plane_axis_0 a))
                                 (Arc.offset a (Arc.plane_axis_1 a))) a in
  let a := Arc.set_linear_travel
             (fsub (GM.target (Arc.gm a) (Arc.plane_axis_2 a))
                   (Arc.position a (Arc.plane_axis_2 a))) a in
  Arc.set_length
    (hypot (fmul (Arc.angular_travel a) (Arc.radius a))
           (fabs (Arc.linear_travel a))) a.

(** Lines 231-241: the move time and "Find the minimum number of segments
    that meets these constraints... but is at least 1 segment". *)
Definition arc_segments_block (w : world) (a : Arc.t) : Arc.t :=
  let m := mach w in
  let a := Arc.set_time
             (_get_arc_time (set_arc a w) (Arc.linear_travel a)
                            (Arc.angular_travel a) (Arc.radius a)) a in
  let segments_required_for_chordal_accuracy :=
    fdiv (Arc.length a)
         (fsqrt (fmul (fmul (FNum 4) (CM.chordal_tolerance (cm m)))
                      (fsub (fmul (FNum 2) (Arc.radius a))
                            (CM.chordal_tolerance (cm m))))) in
  let segments_required_for_minimum_distance :=
    fdiv (Arc.length a) (CM.arc_segment_len (cm m)) in
  let segments_required_for_minimum_time :=
    fdiv (fmul (Arc.time a) MICROSECONDS_PER_MINUTE) MIN_ARC_SEGMENT_USEC in
  let a := Arc.set_segments
             (ffloor (min3 segments_required_for_chordal_accuracy
                           segments_required_for_minimum_distance
                           segments_required_for_minimum_time)) a in
  Arc.set_segments (fmax (Arc.segments a) (FNum 1)) a.

(** Lines 242-248: the per-segment values, the arc centre and the linear
    target. *)
Definition arc_runtime_block (a : Arc.t) : Arc.t :=
  let a := Arc.set_gm
             (GM.set_move_time (fdiv (Arc.time a) (Arc.segments a)) (Arc.gm a)) a in
  let a := Arc.set_segment_count (int32_of_float (Arc.segments a)) a in
  let a := Arc.set_segment_theta
             (fdiv (Arc.angular_travel a) (Arc.segments a)) a in
  let a := Arc.set_segment_linear_travel
             (fdiv (Arc.linear_travel a) (Arc.segments a)) a in
  let a := Arc.set_center_0
             (fsub (Arc.position a (Arc.plane_axis_0 a))
                   (fmul (fsin (Arc.theta a)) (Arc.radius a))) a in
  let a := Arc.set_center_1
             (fsub (Arc.position a (Arc.plane_axis_1 a))
                   (fmul (fcos (Arc.theta a)) (Arc.radius a))) a in
  Arc.set_gm
    (GM.set_target
       (vset (GM.target (Arc.gm a)) (Arc.plane_axis_2 a)
             (Arc.position a (Arc.plane_axis_2 a)))
       (Arc.gm a)) a.

(** Line 191: "A non-zero radius value indicated a radius arc". *)
Definition arc_offsets_block (w : world) : stat_t * world :=
  if fp_NOT_ZERO (Arc.radius (arc w))
  then _compute_arc_offsets_from_radius w
  else (STAT_OK, w).

(** [_compute_arc()].  The body is written as its commented blocks, each a
    small function on the arc singleton, run in the order of the source. *)
Definition _compute_arc (w : world) : stat_t * world :=
  ritorno (arc_offsets_block w) (fun w =>
  let a := Arc.set_theta (arc_start_theta (arc w)) (arc w) in
  if isnan (Arc.theta a) then (STAT_ARC_SPECIFICATION_ERROR, set_arc a w)
  else if isnan (arc_end_theta a) then (STAT_ARC_SPECIFICATION_ERROR, set_arc a w)
  else
    let a := arc_travel_block (GM.motion_mode (gm (mach w))) (arc_end_theta a) a in
    let a := arc_length_block a in
    if flt (Arc.length a) (CM.arc_segment_len (cm (mach w)))
    then (STAT_MINIMUM_LENGTH_MOVE_ERROR, set_arc a w)
    else (STAT_OK, set_arc (arc_runtime_block (arc_segments_block w a)) w)).

(** [_test_arc_soft_limits()]. *)
Definition _test_arc_soft_limits (w : world) : stat_t * world :=
  (cm_test_soft_limits (GM.target (Arc.gm (arc w))) (mach w), w).

(** Lines 92-121 of [cm_arc_feed]: "set values in the Gcode model state &
    copy it", "populate the arc control singleton" and "Set the arc plane
    for the current G17/G18/G19 setting". *)
Definition arc_feed_setup (target flags : vec) (i j k radius : float)
    (motion_mode : cmMotionMode) (w : world) : world :=
  let m := cm_set_model_target target flags (mach w) in
  let m := set_gm (GM.set_motion_mode motion_mode (gm m)) m in
  let m := cm_set_work_offsets m in
  let a := Arc.set_gm (gm m) (arc w) in
  let a := Arc.set_position (copy_axis_vector (GMX.position (gmx m))) a in
  let a := Arc.set_radius (_to_millimeters m radius) a in
  let a := Arc.set_offset (vset (Arc.offset a) 0 (_to_millimeters m i)) a in
  let a := Arc.set_offset (vset (Arc.offset a) 1 (_to_millimeters m j)) a in
  let a := Arc.set_offset (vset (Arc.offset a) 2 (_to_millimeters m k)) a in
  let a :=
    match GM.select_plane (gm m) with
    | CANON_PLANE_XY =>
        Arc.set_plane_axis_2 AXIS_Z
          (Arc.set_plane_axis_1 AXIS_Y (Arc.set_plane_axis_0 AXIS_X a))
    | CANON_PLANE_XZ =>
        Arc.set_plane_axis_2 AXIS_Y
          (Arc.set_plane_axis_1 AXIS_Z (Arc.set_plane_axis_0 AXIS_X a))
    | CANON_PLANE_YZ =>
        Arc.set_plane_axis_2 AXIS_X
          (Arc.set_plane_axis_1 AXIS_Z (Arc.set_plane_axis_0 AXIS_Y a))
    end in
  mkWorld a m.

(** [cm_arc_feed(target, flags, i, j, k, radius, motion_mode)]: the two
    traps, the setup block, then "compute arc runtime values and prep for
    execution by the callback". *)
Definition cm_arc_feed (target flags : vec) (i j k radius : float)
    (motion_mode : cmMotionMode) (w : world) : stat_t * world :=
  if negb (GM.inverse_feed_rate_mode (gm (mach w)))
     && fp_ZERO (GM.feed_rate (gm (mach w)))
  then (STAT_GCODE_FEEDRATE_ERROR, w)
  else if (fp_ZERO i && fp_ZERO j && fp_ZERO k && fp_ZERO radius)
          && fp_ZERO (fadd (fadd (fadd (fadd (fadd (flags AXIS_X) (flags AXIS_Y))
                                             (flags AXIS_Z))
                                       (flags AXIS_A))
                                 (flags AXIS_B))
                           (flags AXIS_C))
  then (STAT_OK, w)
  else
  ritorno (_compute_arc (arc_feed_setup target flags i j k radius motion_mode w))
    (fun w =>
  ritorno (_test_arc_soft_limits w) (fun w =>
  let w := set_mach (cm_cycle_start (mach w)) w in
  let w := set_arc (Arc.set_run_state MOVE_STATE_RUN (arc w)) w in
  let w := set_mach (cm_conditional_set_model_position STAT_OK (mach w)) w in
  (STAT_OK, w))).

(** [cm_arc_callback()]. *)
Definition cm_arc_callback (w : world) : stat_t * world :=
  match Arc.run_state (arc w) with
  | MOVE_STATE_OFF => (STAT_NOOP, w)
  | _ =>
  if (mp_get_planner_buffers_available (mach w) <? PLANNER_BUFFER_HEADROOM)%Z
  then (STAT_EAGAIN, w)
  else
  let a := arc w in
  let a := Arc.set_theta (fadd (Arc.theta a) (Arc.segment_theta a)) a in
  let a := Arc.set_gm
             (GM.set_target
                (vset (GM.target (Arc.gm a)) (Arc.plane_axis_0 a)
                      (fadd (Arc.center_0 a) (fmul (fsin (Arc.theta a)) (Arc.radius a))))
                (Arc.gm a)) a in
  let a := Arc.set_gm
             (GM.set_target
                (vset (GM.target (Arc.gm a)) (Arc.plane_axis_1 a)
                      (fadd (Arc.center_1 a) (fmul (fcos (Arc.theta a)) (Arc.radius a))))
                (Arc.gm a)) a in
  let a := Arc.set_gm
             (GM.set_target
                (vset (GM.target (Arc.gm a)) (Arc.plane_axis_2 a)
                      (fadd (GM.target (Arc.gm a) (Arc.plane_axis_2 a))
                            (Arc.segment_linear_travel a)))
                (Arc.gm a)) a in
  let m := mp_aline (Arc.gm a) (mach w) in
  let a := Arc.set_position (copy_axis_vector (GM.target (Arc.gm a))) a in
  let a := Arc.set_segment_count (wrap_int32 (Arc.segment_count a - 1)) a in
  if (Arc.segment_count a >? 0)%Z then (STAT_EAGAIN, mkWorld a m)
  else (STAT_OK, mkWorld (Arc.set_run_state MOVE_STATE_OFF a) m)
  end.

(** [cm_abort_arc()]. *)
Definition cm_abort_arc (w : world) : world :=
  set_arc (Arc.set_run_state MOVE_STATE_OFF (arc w)) w.

End PlanArc.

(** ** Named values for the statements *)

(** The target [cm_arc_callback] writes into [arc.gm] and submits. *)
Definition next_segment_target (a : Arc.t) : vec :=
  let theta := fadd (Arc.theta a) (Arc.segment_theta a) in
  let t0 := vset (GM.target (Arc.gm a)) (Arc.plane_axis_0 a)
                 (fadd (Arc.center_0 a) (fmul (fsin theta) (Arc.radius a))) in
  let t1 := vset t0 (Arc.plane_axis_1 a)
                 (fadd (Arc.center_1 a) (fmul (fcos theta) (Arc.radius a))) in
  vset t1 (Arc.plane_axis_2 a)
       (fadd (t1 (Arc.plane_axis_2 a)) (Arc.segment_linear_travel a)).

(** ** The radius-to-offset formula as documented

    The header comment of [_compute_arc_offsets_from_radius] (and the spec)
    give [h_x2_div_d = -sqrt(4*r^2 - x^2 - y^2) / hypot(x, y)]. *)
Definition h_x2_div_d_documented (r x y : float) : float :=
  fdiv (fneg (fsqrt (fsub (fsub (fmul (FNum 4) (square r)) (square x)) (square y))))
       (hypot x y).

(** The expression the function body evaluates for the same quantity. *)
Definition h_x2_div_d_computed (r x y : float) : float :=
  fdiv (fneg (fsqrt (fsub (fmul (FNum 4) (square r))
                          (fsub (square x) (square y)))))
       (hypot x y).

(** ** A concrete machine for the examples

    The planner state is the list of the segments submitted so far, out of
    28 buffers; lengths are in millimetres; the model target is the target
    of the command as given; soft limits are off. *)

Definition demo_planner : Type := list GM.t.

Definition demo_set_model_target (target flags : vec)
    (m : Machine demo_planner) : Machine demo_planner :=
  set_gm (GM.set_target target (gm m)) m.

Definition demo_set_model_position (st : stat_t)
    (m : Machine demo_planner) : Machine demo_planner :=
  match st with
  | STAT_OK => mkMachine (gm m) (GMX.mk (GM.target (gm m))
                                        (GMX.inverse_feed_rate (gmx m)))
                         (cm m) (mb m)
  | _ => m
  end.

Definition demo_aline (g : GM.t) (m : Machine demo_planner) : Machine demo_planner :=
  mkMachine (gm m) (gmx m) (cm m) (mb m ++ [g]).

Definition demo : Collaborators demo_planner := {|
  cm_set_model_target := demo_set_model_target;
  cm_set_work_offsets := fun m => m;
  cm_test_soft_limits := fun _ _ => STAT_OK;
  cm_cycle_start := fun m => m;
  cm_conditional_set_model_position := demo_set_model_position;
  _to_millimeters := fun _ x => x;
  mp_get_planner_buffers_available :=
    fun m => (28 - Z.of_nat (List.length (mb m)))%Z;
  mp_aline := demo_aline;
  MICROSECONDS_PER_MINUTE := FNum 60000000;
  MIN_ARC_SEGMENT_USEC := FNum 10000;
  PLANNER_BUFFER_HEADROOM := 4%Z;
  MAGICNUM := 4847%Z
|}.

Definition vzero : vec := fun _ => FNum 0.

(** The vector [(x, y, z, 0, 0, 0)]. *)
Definition vxyz (x y z : R) : vec :=
  fun i => match i with
           | 0%nat => FNum x
           | 1%nat => FNum y
           | 2%nat => FNum z
           | _ => FNum 0
           end.

Definition demo_gm (feed : R) (mode : cmMotionMode) (tgt : vec) : GM.t :=
  GM.mk tgt vzero (FNum feed) mode false CANON_PLANE_XY (FNum 0).

Definition demo_cm : CM.t :=
  CM.mk (fun _ => Axis.mk (FNum 1000)) (FNum (1 / 10)) (FNum (1 / 100)).

(** An idle session in the XY plane, every number zero. *)
Definition demo_arc_idle : Arc.t :=
  Arc.mk 4847 MOVE_STATE_OFF vzero vzero (FNum 0) (FNum 0) (FNum 0) (FNum 0)
         (FNum 0) (FNum 0) (FNum 0) AXIS_X AXIS_Y AXIS_Z (FNum 0) 0 (FNum 0)
         (FNum 0) (FNum 0) (FNum 0) (demo_gm 0 MOTION_MODE_CW_ARC vzero) 4847.

(** A machine at the origin with feed rate [feed], nothing queued. *)
Definition demo_machine (feed : R) : Machine demo_planner :=
  mkMachine (demo_gm feed MOTION_MODE_CW_ARC vzero)
            (GMX.mk vzero (FNum 0)) demo_cm [].

Definition demo_world (feed : R) : World demo_planner :=
  mkWorld demo_arc_idle (demo_machine feed).

(** A session that is running: centre [(0, 5)], radius 5, start angle
    [-pi], three segments of a quarter turn in total still to go. *)
Definition demo_arc_running : Arc.t :=
  Arc.mk 4847 MOVE_STATE_RUN vzero (vxyz 0 5 0) (FNum 8) (FNum (1 / 10))
         (FNum (- PI)) (FNum 5) (FNum 0) (FNum (PI / 2)) (FNum 0)
         AXIS_X AXIS_Y AXIS_Z (FNum 3) 3 (FNum (PI / 6)) (FNum 0)
         (FNum 0) (FNum 5) (demo_gm 100 MOTION_MODE_CW_ARC (vxyz (-5) 5 0)) 4847.

Definition demo_world_running : World demo_planner :=
  mkWorld demo_arc_running (demo_machine 100).

(** The state [_compute_arc_offsets_from_radius] sees for an arc of radius
    [r] from the origin to [(x, y)]. *)
Definition demo_world_radius (r x y : R) : World demo_planner :=
  mkWorld
    (Arc.mk 4847 MOVE_STATE_OFF vzero vzero (FNum 0) (FNum 0) (FNum 0) (FNum r)
            (FNum r) (FNum 0) (FNum 0) AXIS_X AXIS_Y AXIS_Z (FNum 0) 0 (FNum 0)
            (FNum 0) (FNum 0) (FNum 0)
            (demo_gm 100 MOTION_MODE_CW_ARC (vxyz x y 0)) 4847)
    (mkMachine (demo_gm 100 MOTION_MODE_CW_ARC (vxyz x y 0))
               (GMX.mk vzero (FNum 0)) demo_cm []).

(** The state [_compute_arc] sees for a full turn of a helix in offset
    mode: from the origin around the centre [(0, 5)] to [(0, 0, 10)],
    clockwise, feed rate 100. *)
Definition demo_world_helix : World demo_planner :=
  mkWorld
    (Arc.mk 4847 MOVE_STATE_OFF vzero (vxyz 0 5 0) (FNum 0) (FNum 0) (FNum 0)
            (FNum 0) (FNum 0) (FNum 0) (FNum 0) AXIS_X AXIS_Y AXIS_Z (FNum 0) 0
            (FNum 0) (FNum 0) (FNum 0) (FNum 0)
            (demo_gm 100 MOTION_MODE_CW_ARC (vxyz 0 0 10)) 4847)
    (mkMachine (demo_gm 100 MOTION_MODE_CW_ARC (vxyz 0 0 10))
               (GMX.mk vzero (FNum 0)) demo_cm []).

(** ** The main loop, as far as the arc planner goes

    [n] successive calls of [cm_arc_callback]: the statuses in order, and
    the world after the last call. *)
Fixpoint cm_arc_callback_n {Planner : Type} {E : Collaborators Planner}
    (n : nat) (w : World Planner) : list stat_t * World Planner :=
  match n with
  | O => ([], w)
  | S n' =>
      let r := cm_arc_callback w in
      let rest := cm_arc_callback_n n' (snd r) in
      (fst r :: fst rest, snd rest)
  end.

(** The demo machine with a planner that is drained as fast as it is
    filled: 28 buffers are free at every call. *)
Definition demo_roomy : Collaborators demo_planner := {|
  cm_set_model_target := demo_set_model_target;
  cm_set_work_offsets := fun m => m;
  cm_test_soft_limits := fun _ _ => STAT_OK;
  cm_cycle_start := fun m => m;
  cm_conditional_set_model_position := demo_set_model_position;
  _to_millimeters := fun _ x => x;
  mp_get_planner_buffers_available := fun _ => 28%Z;
  mp_aline := demo_aline;
  MICROSECONDS_PER_MINUTE := FNum 60000000;
  MIN_ARC_SEGMENT_USEC := FNum 10000;
  PLANNER_BUFFER_HEADROOM := 4%Z;
  MAGICNUM := 4847%Z
|}.

(** The radius-mode state of [demo_world_radius] with the motion mode
    [mode] and the radius field [r] of any sign. *)
Definition demo_world_radius_mode (mode : cmMotionMode) (r x y : R)
    : World demo_planner :=
  mkWorld
    (Arc.mk 4847 MOVE_STATE_OFF vzero vzero (FNum 0) (FNum 0) (FNum 0) (FNum r)
            (FNum r) (FNum 0) (FNum 0) AXIS_X AXIS_Y AXIS_Z (FNum 0) 0 (FNum 0)
            (FNum 0) (FNum 0) (FNum 0)
            (demo_gm 100 mode (vxyz x y 0)) 4847)
    (mkMachine (demo_gm 100 mode (vxyz x y 0))
               (GMX.mk vzero (FNum 0)) demo_cm []).

(** The running demo session with [n] segments still to go. *)
Definition demo_world_counting (n : Z) : World demo_planner :=
  mkWorld (Arc.set_segment_count n demo_arc_running) (demo_machine 100).

(** The helix command of [demo_world_helix] as the Gcode layer gives it
    to [cm_arc_feed] on the idle demo machine: target [(0, 0, 10)] with
    the Z word present, offsets [(0, 5, 0)], no radius, clockwise; and
    the world the setup block of [cm_arc_feed] makes of it. *)
Definition demo_world_fed : World demo_planner :=
  arc_feed_setup (E := demo_roomy) (vxyz 0 0 10) (vxyz 0 0 1)
                 (FNum 0) (FNum 5) (FNum 0) (FNum 0) MOTION_MODE_CW_ARC
                 (demo_world 100).

(** The result of [cm_arc_feed] on that command. *)
Definition demo_fed : stat_t * World demo_planner :=
  cm_arc_feed (E := demo_roomy) (vxyz 0 0 10) (vxyz 0 0 1)
              (FNum 0) (FNum 5) (FNum 0) (FNum 0) MOTION_MODE_CW_ARC
              (demo_world 100).

(** ** The entry points, in any order

    The calls the rest of the firmware can make into [plan_arc.c] once
    [cm_arc_init] has run: [cm_arc_feed], the "canonical machine entry
    point for arc"; [cm_arc_callback], "called from the controller main
    loop"; and [cm_abort_arc], "OK to call if no arc is running". *)
Inductive arc_call : Type :=
| Call_cm_arc_feed (target flags : vec) (i j k radius : float)
                   (motion_mode : cmMotionMode)
| Call_cm_arc_callback
| Call_cm_abort_arc.

Definition run_call {Planner : Type} {E : Collaborators Planner}
    (c : arc_call) (w : World Planner) : World Planner :=
  match c with
  | Call_cm_arc_feed target flags i j k radius motion_mode =>
      snd (cm_arc_feed target flags i j k radius motion_mode w)
  | Call_cm_arc_callback => snd (cm_arc_callback w)
  | Call_cm_abort_arc => cm_abort_arc w
  end.

Fixpoint run_calls {Planner : Type} {E : Collaborators Planner}
    (cs : list arc_call) (w : World Planner) : World Planner :=
  match cs with
  | [] => w
  | c :: cs' => run_calls cs' (run_call c w)
  end.


(** ** Facts about the arithmetic *)

Lemma Rltb_true (x y : R) : x < y -> Rltb x y = true.
Proof. intros H; unfold Rltb; destruct (Rlt_dec x y); [reflexivity | contradiction]. Qed.

Lemma Rltb_false (x y : R) : ~ x < y -> Rltb x y = false.
Proof. intros H; unfold Rltb; destruct (Rlt_dec x y); [contradiction | reflexivity]. Qed.

Lemma Rltb_iff (x y : R) : Rltb x y = true <-> x < y.
Proof. unfold Rltb; destruct (Rlt_dec x y); split; intros; (assumption || discriminate || reflexivity || contradiction). Qed.

Lemma Reqb_true (x y : R) : x = y -> Reqb x y = true.
Proof. intros H; unfold Reqb; destruct (Req_dec_T x y); [reflexivity | contradiction]. Qed.

Lemma Reqb_false (x y : R) : x <> y -> Reqb x y = false.
Proof. intros H; unfold Reqb; destruct (Req_dec_T x y); [contradiction | reflexivity]. Qed.

Lemma Reqb_iff (x y : R) : Reqb x y = true <-> x = y.
Proof. unfold Reqb; destruct (Req_dec_T x y); split; intros; (assumption || discriminate || reflexivity || contradiction). Qed.

(** Reduce projections of updated records, and nothing else. *)
Ltac record_simpl :=
  lazy beta iota zeta delta
    [Arc.magic_start Arc.run_state Arc.position Arc.offset Arc.length Arc.time
     Arc.theta Arc.radius Arc.arc_radius Arc.angular_travel Arc.linear_travel
     Arc.plane_axis_0 Arc.plane_axis_1 Arc.plane_axis_2 Arc.segments
     Arc.segment_count Arc.segment_theta Arc.segment_linear_travel
     Arc.center_0 Arc.center_1 Arc.gm Arc.magic_end
     Arc.set_magic_start Arc.set_run_state Arc.set_position Arc.set_offset
     Arc.set_length Arc.set_time Arc.set_theta Arc.set_radius
     Arc.set_angular_travel Arc.set_linear_travel Arc.set_plane_axis_0
     Arc.set_plane_axis_1 Arc.set_plane_axis_2 Arc.set_segments
     Arc.set_segment_count Arc.set_segment_theta
     Arc.set_segment_linear_travel Arc.set_center_0 Arc.set_center_1
     Arc.set_gm Arc.set_magic_end
     GM.target GM.work_offset GM.feed_rate GM.motion_mode
     GM.inverse_feed_rate_mode GM.select_plane GM.move_time
     GM.set_target GM.set_motion_mode GM.set_move_time
     GMX.position GMX.inverse_feed_rate
     arc mach gm gmx cm mb set_arc set_mach set_gm fst snd copy_axis_vector].

Lemma fp_ZERO_0 : fp_ZERO (FNum 0) = true.
Proof. unfold fp_ZERO, feq. now rewrite Reqb_true. Qed.

Lemma fp_ZERO_num (x : float) : fp_ZERO x = true <-> x = FNum 0.
Proof.
  unfold fp_ZERO; destruct x as [| s | r]; simpl; split; intros H;
    try discriminate.
  - apply Reqb_iff in H. now subst.
  - inversion H. now apply Reqb_true.
Qed.

Lemma fle_flt (a b : float) : fle a b = true -> flt b a = false.
Proof.
  unfold fle; destruct a as [| s | x], b as [| s' | y]; simpl; try reflexivity;
    try discriminate.
  - destruct s, s'; simpl; intros; (reflexivity || discriminate).
  - destruct s; simpl; intros; (reflexivity || discriminate).
  - destruct s'; simpl; intros; (reflexivity || discriminate).
  - intros H. apply Rltb_false. apply Bool.orb_true_iff in H as [H | H].
    + apply Rltb_iff in H. lra.
    + apply Reqb_iff in H. lra.
Qed.

Lemma fmax_ge_1 (s : float) : fle (FNum 1) (fmax s (FNum 1)) = true.
Proof.
  unfold fmax, fgt, fle; destruct s as [| n | r]; simpl.
  - now rewrite Reqb_true, Bool.orb_true_r.
  - destruct n; simpl; [now rewrite Reqb_true, Bool.orb_true_r | reflexivity].
  - destruct (Rltb 1 r) eqn:Hr; simpl.
    + now rewrite Hr.
    + now rewrite Reqb_true, Bool.orb_true_r.
Qed.

Lemma fatan_range (a : float) :
  fatan a = FNaN \/ exists t, fatan a = FNum t /\ - (PI / 2) <= t <= PI / 2.
Proof.
  pose proof PI_RGT_0 as HPI.
  destruct a as [| s | r]; simpl.
  - now left.
  - right; destruct s; eexists; (split; [reflexivity | lra]).
  - right; exists (atan r); split; [reflexivity |].
    pose proof (atan_bound r); lra.
Qed.

(** A hypotenuse is never below the magnitude of its second leg (and a NaN
    hypotenuse is below nothing). *)
Lemma hypot_not_below (u : float) (y c : R) :
  c <= Rabs y -> flt (hypot u (FNum y)) (FNum c) = false.
Proof.
  intros Hc. destruct u as [| s | x]; simpl; try reflexivity.
  apply Rltb_false. intros Hlt.
  assert (Hy : Rabs y <= sqrt (x * x + y * y)).
  { rewrite <- (sqrt_Rsqr_abs y). apply sqrt_le_1_alt. unfold Rsqr. nra. }
  lra.
Qed.

(** ** The signed-angle helper [_get_theta] *)

Lemma fle_or_fgt_0 (y : float) :
  y <> FNaN -> fgt y (FNum 0) = false -> fle y (FNum 0) = true.
Proof.
  unfold fgt, fle; destruct y as [| s | r]; simpl; intros Hn H.
  - now elim Hn.
  - destruct s; [reflexivity | discriminate].
  - destruct (Rltb r 0) eqn:Hlt; [reflexivity |]. simpl.
    apply Reqb_true.
    destruct (Rlt_dec r 0) as [Hr | Hr]; [now rewrite (Rltb_true _ _ Hr) in Hlt |].
    destruct (Rlt_dec 0 r) as [Hr' | Hr']; [now rewrite (Rltb_true _ _ Hr') in H |].
    lra.
Qed.

Lemma fdiv_nan_r (x : float) : fdiv x FNaN = FNaN.
Proof. now destruct x. Qed.

Lemma _get_theta_range (x y : float) :
  _get_theta x y = FNaN \/
  exists t, _get_theta x y = FNum t /\ - PI <= t < PI.
Proof.
  pose proof PI_RGT_0 as HPI.
  unfold _get_theta, M_PI.
  destruct (fatan_range (fdiv x (fabs y))) as [Hn | (t & Ht & Hb)].
  - rewrite Hn. destruct (fgt y (FNum 0)); [now left |]. now left.
  - rewrite Ht. destruct (fgt y (FNum 0)).
    + right; exists t; split; [reflexivity | lra].
    + unfold fgt, flt. destruct (Rltb 0 t) eqn:H0.
      * apply Rltb_iff in H0. right; eexists; split; [reflexivity | lra].
      * right; eexists; split; [reflexivity |].
        assert (~ 0 < t) by (intros C; now rewrite (Rltb_true _ _ C) in H0).
        lra.
Qed.

Lemma _get_theta_not_inf (x y : float) (s : bool) : _get_theta x y <> FInf s.
Proof.
  destruct (_get_theta_range x y) as [H | (t & H & _)]; rewrite H; discriminate.
Qed.

(** C5 (amended).  [_get_theta x y] is [atan(x/|y|)] when [y > 0]; it is
    [pi - atan(x/|y|)] when [y <= 0] and [atan(x/|y|) > 0]; in every other
    case it is [-pi - atan(x/|y|)].  A result that is a number lies in the
    closed interval from [-pi] to [pi], and the result is never an
    infinity. *)
Theorem _get_theta_cases_and_range (x y : float) :
  let theta := fatan (fdiv x (fabs y)) in
  (fgt y (FNum 0) = true -> _get_theta x y = theta)
  /\ (fle y (FNum 0) = true -> fgt theta (FNum 0) = true ->
      _get_theta x y = fsub M_PI theta)
  /\ (fgt y (FNum 0) = false ->
      ~ (fle y (FNum 0) = true /\ fgt theta (FNum 0) = true) ->
      _get_theta x y = fsub (fneg M_PI) theta)
  /\ (forall t, _get_theta x y = FNum t -> - PI <= t <= PI)
  /\ (forall s, _get_theta x y <> FInf s).
Proof.
  intros theta. split; [| split; [| split; [| split]]].
  - intros Hy. unfold _get_theta. fold theta. now rewrite Hy.
  - intros Hle Hth. unfold _get_theta. fold theta.
    rewrite (fle_flt _ _ Hle : fgt y (FNum 0) = false). now rewrite Hth.
  - intros Hy Hno. unfold _get_theta. fold theta. rewrite Hy.
    destruct (fgt theta (FNum 0)) eqn:Hth; [| reflexivity].
    exfalso. destruct y as [| s | r].
    + subst theta. simpl in Hth. rewrite fdiv_nan_r in Hth. discriminate.
    + apply Hno; split; [apply fle_or_fgt_0; [discriminate | exact Hy] | reflexivity].
    + apply Hno; split; [apply fle_or_fgt_0; [discriminate | exact Hy] | reflexivity].
  - intros t Ht.
    destruct (_get_theta_range x y) as [H | (t' & H & Hb)]; rewrite H in Ht;
      [discriminate | inversion Ht; subst; lra].
  - apply _get_theta_not_inf.
Qed.

(** For a point straight below the centre ([x = 0], [y < 0]) the helper
    returns [-pi], the excluded end of the half-open interval. *)
Lemma _get_theta_below (x y : R) :
  x = 0 -> y < 0 -> _get_theta (FNum x) (FNum y) = FNum (- PI).
Proof.
  intros -> Hy. unfold _get_theta, M_PI, fgt. simpl.
  rewrite (Reqb_false (Rabs y) 0) by (apply Rabs_no_R0; lra).
  replace (0 / Rabs y) with 0 by (unfold Rdiv; ring). simpl. rewrite atan_0.
  rewrite (Rltb_false 0 y) by lra.
  rewrite (Rltb_false 0 0) by lra.
  f_equal; lra.
Qed.

Lemma _get_theta_below_centre : _get_theta (FNum 0) (FNum (-1)) = FNum (- PI).
Proof. apply _get_theta_below; lra. Qed.

(** With both coordinates zero the angle is undefined. *)
Lemma _get_theta_origin (x y : R) :
  x = 0 -> y = 0 -> _get_theta (FNum x) (FNum y) = FNaN.
Proof.
  intros -> ->. unfold _get_theta, M_PI, fgt. simpl.
  rewrite (Reqb_true (Rabs 0) 0) by apply Rabs_R0.
  rewrite (Reqb_true 0 0) by reflexivity. simpl.
  now rewrite (Rltb_false 0 0) by lra.
Qed.

(** C5, counterexample: at [(0, -1)] the result is a number outside the
    half-open interval [(-pi, pi]]. *)
Lemma _get_theta_half_open_fails :
  exists t, _get_theta (FNum 0) (FNum (-1)) = FNum t /\ ~ (- PI < t <= PI).
Proof.
  exists (- PI). split; [exact _get_theta_below_centre | lra].
Qed.

(** C5 (amended), first case, at [(1, 1)]. *)
Lemma _get_theta_cases_and_range_witness :
  fgt (FNum 1) (FNum 0) = true
  /\ _get_theta (FNum 1) (FNum 1) = fatan (fdiv (FNum 1) (fabs (FNum 1))).
Proof.
  assert (H : fgt (FNum 1) (FNum 0) = true) by (apply Rltb_true; lra).
  split; [exact H |].
  exact (proj1 (_get_theta_cases_and_range (FNum 1) (FNum 1)) H).
Defined.

(** ** Abort *)

Section Abort.

Context {Planner : Type}.

Lemma set_run_state_same (a : Arc.t) :
  Arc.set_run_state (Arc.run_state a) a = a.
Proof. now destruct a. Qed.

(** C10.  [cm_abort_arc] sets [run_state] to off and changes nothing else:
    the machine and every other field of the session (position, theta,
    segment count, per-segment deltas, centre, captured G-code context, ...)
    keep their values; on a session that is already off nothing changes at
    all, and aborting twice is aborting once. *)
Theorem cm_abort_arc_frame (w : World Planner) :
  let a := arc w in
  let a' := arc (cm_abort_arc w) in
  Arc.run_state a' = MOVE_STATE_OFF
  /\ mach (cm_abort_arc w) = mach w
  /\ (Arc.magic_start a' = Arc.magic_start a
      /\ Arc.position a' = Arc.position a
      /\ Arc.offset a' = Arc.offset a
      /\ Arc.length a' = Arc.length a
      /\ Arc.time a' = Arc.time a
      /\ Arc.theta a' = Arc.theta a
      /\ Arc.radius a' = Arc.radius a
      /\ Arc.arc_radius a' = Arc.arc_radius a
      /\ Arc.angular_travel a' = Arc.angular_travel a
      /\ Arc.linear_travel a' = Arc.linear_travel a
      /\ Arc.plane_axis_0 a' = Arc.plane_axis_0 a
      /\ Arc.plane_axis_1 a' = Arc.plane_axis_1 a
      /\ Arc.plane_axis_2 a' = Arc.plane_axis_2 a
      /\ Arc.segments a' = Arc.segments a
      /\ Arc.segment_count a' = Arc.segment_count a
      /\ Arc.segment_theta a' = Arc.segment_theta a
      /\ Arc.segment_linear_travel a' = Arc.segment_linear_travel a
      /\ Arc.center_0 a' = Arc.center_0 a
      /\ Arc.center_1 a' = Arc.center_1 a
      /\ Arc.gm a' = Arc.gm a
      /\ Arc.magic_end a' = Arc.magic_end a)
  /\ (Arc.run_state a = MOVE_STATE_OFF -> cm_abort_arc w = w)
  /\ cm_abort_arc (cm_abort_arc w) = cm_abort_arc w.
Proof.
  destruct w as [a m]. cbn.
  split; [reflexivity |]. split; [reflexivity |].
  split; [repeat split |]. split.
  - intros H. unfold cm_abort_arc, set_arc; cbn. rewrite <- H.
    now rewrite set_run_state_same.
  - reflexivity.
Qed.

End Abort.

(** Aborting the idle demo session leaves the world as it is. *)
Lemma cm_abort_arc_frame_witness :
  Arc.run_state (arc (demo_world 100)) = MOVE_STATE_OFF
  /\ cm_abort_arc (demo_world 100) = demo_world 100.
Proof.
  assert (H : Arc.run_state (arc (demo_world 100)) = MOVE_STATE_OFF) by reflexivity.
  split; [exact H |].
  exact (proj1 (proj2 (proj2 (proj2 (cm_abort_arc_frame (demo_world 100))))) H).
Defined.

(** ** The traps at the head of [cm_arc_feed] *)

Section Traps.

Context {Planner : Type} {E : Collaborators Planner}.

Lemma feed_rate_trap (target flags : vec) (i j k radius : float)
    (motion_mode : cmMotionMode) (w : World Planner) :
  GM.inverse_feed_rate_mode (gm (mach w)) = false ->
  fp_ZERO (GM.feed_rate (gm (mach w))) = true ->
  cm_arc_feed target flags i j k radius motion_mode w
  = (STAT_GCODE_FEEDRATE_ERROR, w).
Proof. intros Hinv Hfeed. unfold cm_arc_feed. now rewrite Hinv, Hfeed. Qed.

(** C9.  With a zero feed rate and inverse feed rate mode off, [cm_arc_feed]
    returns the feed rate error at once: whatever the command, the world
    after the call is the world before it. *)
Theorem cm_arc_feed_zero_feed_rate (target flags : vec) (i j k radius : float)
    (motion_mode : cmMotionMode) (w : World Planner) :
  GM.inverse_feed_rate_mode (gm (mach w)) = false ->
  GM.feed_rate (gm (mach w)) = FNum 0 ->
  cm_arc_feed target flags i j k radius motion_mode w
  = (STAT_GCODE_FEEDRATE_ERROR, w).
Proof.
  intros Hinv Hfeed. apply feed_rate_trap; [exact Hinv |].
  rewrite Hfeed. exact fp_ZERO_0.
Qed.

Lemma flags_sum_zero (flags : vec) :
  flags AXIS_X = FNum 0 -> flags AXIS_Y = FNum 0 -> flags AXIS_Z = FNum 0 ->
  flags AXIS_A = FNum 0 -> flags AXIS_B = FNum 0 -> flags AXIS_C = FNum 0 ->
  fp_ZERO (fadd (fadd (fadd (fadd (fadd (flags AXIS_X) (flags AXIS_Y))
                                  (flags AXIS_Z))
                            (flags AXIS_A))
                      (flags AXIS_B))
                (flags AXIS_C)) = true.
Proof.
  intros -> -> -> -> -> ->. apply fp_ZERO_num. simpl. f_equal. lra.
Qed.

(** C8 (amended).  When the feed rate trap does not fire (inverse feed rate
    mode is on, or the feed rate is not zero), a command whose [i], [j],
    [k] and radius are all zero and whose six axis flags are all zero
    returns [STAT_OK] and leaves the whole world, session included, as it
    was. *)
Theorem cm_arc_feed_no_motion (target flags : vec) (motion_mode : cmMotionMode)
    (w : World Planner) :
  GM.inverse_feed_rate_mode (gm (mach w)) = true
  \/ fp_ZERO (GM.feed_rate (gm (mach w))) = false ->
  flags AXIS_X = FNum 0 -> flags AXIS_Y = FNum 0 -> flags AXIS_Z = FNum 0 ->
  flags AXIS_A = FNum 0 -> flags AXIS_B = FNum 0 -> flags AXIS_C = FNum 0 ->
  cm_arc_feed target flags (FNum 0) (FNum 0) (FNum 0) (FNum 0) motion_mode w
  = (STAT_OK, w).
Proof.
  intros Hfeed HX HY HZ HA HB HC. unfold cm_arc_feed.
  rewrite (flags_sum_zero flags HX HY HZ HA HB HC), fp_ZERO_0.
  destruct Hfeed as [-> | ->]; simpl.
  - reflexivity.
  - now rewrite Bool.andb_false_r.
Qed.

End Traps.

(** C9 on the demo machine with feed rate 0: a half-circle command is
    refused and nothing changes. *)
Lemma cm_arc_feed_zero_feed_rate_witness :
  cm_arc_feed (E := demo) (vxyz 10 0 0) (vxyz 1 0 0) (FNum 5) (FNum 0) (FNum 0)
              (FNum 0) MOTION_MODE_CW_ARC (demo_world 0)
  = (STAT_GCODE_FEEDRATE_ERROR, demo_world 0).
Proof.
  apply (cm_arc_feed_zero_feed_rate (E := demo)); reflexivity.
Defined.

(** C8, counterexample: the bare command on a machine with feed rate 0 (and
    inverse feed rate mode off) is answered with the feed rate error, not
    with [STAT_OK]. *)
Lemma cm_arc_feed_no_motion_zero_feed :
  cm_arc_feed (E := demo) vzero vzero (FNum 0) (FNum 0) (FNum 0) (FNum 0)
              MOTION_MODE_CW_ARC (demo_world 0)
  <> (STAT_OK, demo_world 0).
Proof.
  rewrite (feed_rate_trap (E := demo)) by (try reflexivity; exact fp_ZERO_0).
  discriminate.
Qed.

(** C8 (amended) on the demo machine with feed rate 100. *)
Lemma cm_arc_feed_no_motion_witness :
  cm_arc_feed (E := demo) vzero vzero (FNum 0) (FNum 0) (FNum 0) (FNum 0)
              MOTION_MODE_CW_ARC (demo_world 100)
  = (STAT_OK, demo_world 100).
Proof.
  apply (cm_arc_feed_no_motion (E := demo)); try reflexivity.
  right. simpl. unfold fp_ZERO, feq. apply Reqb_false. lra.
Defined.

(** ** The segment emitter [cm_arc_callback] *)

Section Callback.

Context {Planner : Type} {E : Collaborators Planner}.

Lemma vset_same (v : vec) (i : nat) (x : float) : vset v i x i = x.
Proof. unfold vset. now rewrite Nat.eqb_refl. Qed.

Lemma vset_other (v : vec) (i j : nat) (x : float) : j <> i -> vset v i x j = v j.
Proof. intros H. unfold vset. now rewrite (proj2 (Nat.eqb_neq j i) H). Qed.

(** With three distinct plane axes the three writes do not interfere. *)
Lemma next_segment_target_axes (a : Arc.t) :
  Arc.plane_axis_0 a <> Arc.plane_axis_1 a ->
  Arc.plane_axis_0 a <> Arc.plane_axis_2 a ->
  Arc.plane_axis_1 a <> Arc.plane_axis_2 a ->
  let theta := fadd (Arc.theta a) (Arc.segment_theta a) in
  next_segment_target a (Arc.plane_axis_0 a)
  = fadd (Arc.center_0 a) (fmul (fsin theta) (Arc.radius a))
  /\ next_segment_target a (Arc.plane_axis_1 a)
     = fadd (Arc.center_1 a) (fmul (fcos theta) (Arc.radius a))
  /\ next_segment_target a (Arc.plane_axis_2 a)
     = fadd (GM.target (Arc.gm a) (Arc.plane_axis_2 a))
            (Arc.segment_linear_travel a)
  /\ (forall i, i <> Arc.plane_axis_0 a -> i <> Arc.plane_axis_1 a ->
                i <> Arc.plane_axis_2 a ->
                next_segment_target a i = GM.target (Arc.gm a) i).
Proof.
  intros H01 H02 H12 theta. unfold next_segment_target. fold theta.
  repeat split.
  - rewrite vset_other by exact H02. rewrite vset_other by exact H01.
    apply vset_same.
  - rewrite vset_other by exact H12. apply vset_same.
  - rewrite vset_same. f_equal.
    rewrite vset_other by (intros C; now apply H12).
    apply vset_other. intros C; now apply H02.
  - intros i H0 H1 H2. now rewrite !vset_other.
Qed.

(** C3.  One call of [cm_arc_callback]:
    - with [run_state] off it returns [STAT_NOOP] and the world is untouched;
    - with fewer planner buffers available than the headroom it returns
      [STAT_EAGAIN] and the world is untouched (segment count and position
      included);
    - otherwise theta advances by [segment_theta]; the target of the
      captured context becomes centre + (sin theta, cos theta) * radius on
      the two plane axes and advances by [segment_linear_travel] on the
      third; [mp_aline] is called once, with that context; the position
      becomes the submitted target; the segment count is decremented (in
      [int32_t]); the status is [STAT_EAGAIN] while the count is above 0,
      else [run_state] goes off and the status is [STAT_OK]. *)
Theorem cm_arc_callback_step (w : World Planner) :
  let a := arc w in
  let r := cm_arc_callback w in
  let a' := arc (snd r) in
  (Arc.run_state a = MOVE_STATE_OFF -> r = (STAT_NOOP, w))
  /\ (Arc.run_state a <> MOVE_STATE_OFF ->
      (mp_get_planner_buffers_available (mach w) < PLANNER_BUFFER_HEADROOM)%Z ->
      r = (STAT_EAGAIN, w))
  /\ (Arc.run_state a <> MOVE_STATE_OFF ->
      (PLANNER_BUFFER_HEADROOM <= mp_get_planner_buffers_available (mach w))%Z ->
      Arc.theta a' = fadd (Arc.theta a) (Arc.segment_theta a)
      /\ GM.target (Arc.gm a') = next_segment_target a
      /\ (Arc.plane_axis_0 a <> Arc.plane_axis_1 a ->
          Arc.plane_axis_0 a <> Arc.plane_axis_2 a ->
          Arc.plane_axis_1 a <> Arc.plane_axis_2 a ->
          GM.target (Arc.gm a') (Arc.plane_axis_0 a)
          = fadd (Arc.center_0 a) (fmul (fsin (Arc.theta a')) (Arc.radius a))
          /\ GM.target (Arc.gm a') (Arc.plane_axis_1 a)
             = fadd (Arc.center_1 a) (fmul (fcos (Arc.theta a')) (Arc.radius a))
          /\ GM.target (Arc.gm a') (Arc.plane_axis_2 a)
             = fadd (GM.target (Arc.gm a) (Arc.plane_axis_2 a))
                    (Arc.segment_linear_travel a))
      /\ Arc.gm a' = GM.set_target (next_segment_target a) (Arc.gm a)
      /\ mach (snd r) = mp_aline (Arc.gm a') (mach w)
      /\ Arc.position a' = GM.target (Arc.gm a')
      /\ Arc.segment_count a' = wrap_int32 (Arc.segment_count a - 1)
      /\ ((-2147483648 < Arc.segment_count a <= 2147483647)%Z ->
          Arc.segment_count a' = (Arc.segment_count a - 1)%Z)
      /\ ((Arc.segment_count a' > 0)%Z ->
          fst r = STAT_EAGAIN /\ Arc.run_state a' = Arc.run_state a)
      /\ ((Arc.segment_count a' <= 0)%Z ->
          fst r = STAT_OK /\ Arc.run_state a' = MOVE_STATE_OFF)).
Proof.
  intros a r a'. subst r a' a. split; [| split].
  - intros H. unfold cm_arc_callback. now rewrite H.
  - intros H Hlt. unfold cm_arc_callback.
    destruct (Arc.run_state (arc w)); [now elim H |].
    now rewrite (proj2 (Z.ltb_lt _ _) Hlt).
  - intros H Hge.
    pose proof (next_segment_target_axes (arc w)) as Haxes.
    assert (Hwrap : (-2147483648 < Arc.segment_count (arc w) <= 2147483647)%Z ->
                    wrap_int32 (Arc.segment_count (arc w) - 1)
                    = (Arc.segment_count (arc w) - 1)%Z).
    { intros Hb. unfold wrap_int32. rewrite Z.mod_small by lia. lia. }
    assert (Hrs : Arc.run_state (arc w) = MOVE_STATE_RUN)
      by (destruct (Arc.run_state (arc w)); congruence).
    apply Z.ltb_ge in Hge.
    unfold cm_arc_callback. rewrite Hrs, Hge.
    record_simpl.
    match goal with
    | |- context [if (?c >? 0)%Z then _ else _] =>
        destruct (Z.gtb_spec c 0) as [Hc | Hc]
    end; record_simpl.
    + split; [reflexivity |]. split; [reflexivity |]. split.
      { intros H01 H02 H12.
        destruct (Haxes H01 H02 H12) as (E0 & E1 & E2 & _).
        split; [exact E0 | split; [exact E1 | exact E2]]. }
      split; [reflexivity |]. split; [reflexivity |]. split; [reflexivity |].
      split; [reflexivity |]. split; [exact Hwrap |]. split.
      * intros _. split; [reflexivity | now symmetry].
      * intros Hle. lia.
    + split; [reflexivity |]. split; [reflexivity |]. split.
      { intros H01 H02 H12.
        destruct (Haxes H01 H02 H12) as (E0 & E1 & E2 & _).
        split; [exact E0 | split; [exact E1 | exact E2]]. }
      split; [reflexivity |]. split; [reflexivity |]. split; [reflexivity |].
      split; [reflexivity |]. split; [exact Hwrap |]. split.
      * intros Hgt. lia.
      * intros _. split; reflexivity.
Qed.

End Callback.

(** C3 on the running demo session (three segments to go, 28 free planner
    buffers): the call emits a segment, two remain and the status is
    [STAT_EAGAIN]. *)
Lemma cm_arc_callback_step_witness :
  Arc.run_state (arc demo_world_running) <> MOVE_STATE_OFF
  /\ (PLANNER_BUFFER_HEADROOM (Collaborators := demo)
      <= mp_get_planner_buffers_available (Collaborators := demo)
           (mach demo_world_running))%Z
  /\ Arc.segment_count (arc (snd (cm_arc_callback (E := demo) demo_world_running)))
     = 2%Z
  /\ fst (cm_arc_callback (E := demo) demo_world_running) = STAT_EAGAIN.
Proof.
  assert (H1 : Arc.run_state (arc demo_world_running) <> MOVE_STATE_OFF)
    by discriminate.
  assert (H2 : (PLANNER_BUFFER_HEADROOM (Collaborators := demo)
                <= mp_get_planner_buffers_available (Collaborators := demo)
                     (mach demo_world_running))%Z)
    by (vm_compute; discriminate).
  split; [exact H1 |]. split; [exact H2 |].
  destruct (proj2 (proj2 (cm_arc_callback_step (E := demo) demo_world_running)) H1 H2)
    as (_ & _ & _ & _ & _ & _ & _ & Hdec & Hpos & _).
  assert (Hc : Arc.segment_count
                 (arc (snd (cm_arc_callback (E := demo) demo_world_running))) = 2%Z).
  { rewrite Hdec; [reflexivity |]. simpl. lia. }
  split; [exact Hc |].
  apply Hpos. rewrite Hc. lia.
Defined.

(** ** The blocks of [_compute_arc], one by one *)

Section BlockFacts.

Context {Planner : Type} {E : Collaborators Planner}.

Lemma arc_offsets_block_frame (w : World Planner) :
  mach (snd (arc_offsets_block w)) = mach w
  /\ Arc.run_state (arc (snd (arc_offsets_block w))) = Arc.run_state (arc w).
Proof.
  unfold arc_offsets_block, _compute_arc_offsets_from_radius.
  destruct (fp_NOT_ZERO _); [| now split].
  cbv zeta. destruct (isnan _); now split.
Qed.

(** The angular travel block writes [angular_travel] only. *)
Lemma arc_travel_block_frame (mode : cmMotionMode) (theta_end : float) (a : Arc.t) :
  let a' := arc_travel_block mode theta_end a in
  Arc.run_state a' = Arc.run_state a
  /\ Arc.theta a' = Arc.theta a
  /\ Arc.offset a' = Arc.offset a
  /\ Arc.position a' = Arc.position a
  /\ Arc.gm a' = Arc.gm a
  /\ Arc.plane_axis_2 a' = Arc.plane_axis_2 a.
Proof.
  unfold arc_travel_block. cbv zeta.
  destruct (fp_ZERO _), (is_ccw mode); repeat split.
Qed.

(** The value the angular travel block leaves in [angular_travel]. *)
Lemma arc_travel_block_value (mode : cmMotionMode) (theta_end : float) (a : Arc.t) :
  let theta_end' :=
    if flt theta_end (Arc.theta a) then fadd theta_end two_pi else theta_end in
  let d := fsub theta_end' (Arc.theta a) in
  Arc.angular_travel (arc_travel_block mode theta_end a)
  = if fp_ZERO d
    then (if is_ccw mode then fsub d two_pi else two_pi)
    else (if is_ccw mode then fsub d two_pi else d).
Proof.
  unfold arc_travel_block. cbv zeta.
  change (Arc.angular_travel (Arc.set_angular_travel ?v a)) with v.
  destruct (fp_ZERO _), (is_ccw mode); reflexivity.
Qed.

Lemma arc_length_block_frame (a : Arc.t) :
  let a' := arc_length_block a in
  Arc.run_state a' = Arc.run_state a
  /\ Arc.theta a' = Arc.theta a
  /\ Arc.angular_travel a' = Arc.angular_travel a.
Proof. repeat split. Qed.

Lemma arc_length_block_value (a : Arc.t) :
  let a' := arc_length_block a in
  Arc.radius a' = hypot (Arc.offset a (Arc.plane_axis_0 a))
                        (Arc.offset a (Arc.plane_axis_1 a))
  /\ Arc.linear_travel a'
     = fsub (GM.target (Arc.gm a) (Arc.plane_axis_2 a))
            (Arc.position a (Arc.plane_axis_2 a))
  /\ Arc.length a'
     = hypot (fmul (Arc.angular_travel a') (Arc.radius a'))
             (fabs (Arc.linear_travel a')).
Proof. repeat split. Qed.

Lemma arc_segments_block_frame (w : World Planner) (a : Arc.t) :
  let a' := arc_segments_block w a in
  Arc.run_state a' = Arc.run_state a
  /\ Arc.theta a' = Arc.theta a
  /\ Arc.angular_travel a' = Arc.angular_travel a
  /\ Arc.radius a' = Arc.radius a
  /\ Arc.linear_travel a' = Arc.linear_travel a
  /\ Arc.length a' = Arc.length a.
Proof. repeat split. Qed.

Lemma arc_segments_block_value (w : World Planner) (a : Arc.t) :
  let a' := arc_segments_block w a in
  let c := cm (mach w) in
  Arc.segments a'
  = fmax (ffloor (min3
            (fdiv (Arc.length a')
                  (fsqrt (fmul (fmul (FNum 4) (CM.chordal_tolerance c))
                               (fsub (fmul (FNum 2) (Arc.radius a'))
                                     (CM.chordal_tolerance c)))))
            (fdiv (Arc.length a') (CM.arc_segment_len c))
            (fdiv (fmul (Arc.time a') MICROSECONDS_PER_MINUTE)
                  MIN_ARC_SEGMENT_USEC)))
         (FNum 1).
Proof. reflexivity. Qed.

Lemma arc_runtime_block_frame (a : Arc.t) :
  let a' := arc_runtime_block a in
  Arc.run_state a' = Arc.run_state a
  /\ Arc.theta a' = Arc.theta a
  /\ Arc.angular_travel a' = Arc.angular_travel a
  /\ Arc.radius a' = Arc.radius a
  /\ Arc.linear_travel a' = Arc.linear_travel a
  /\ Arc.length a' = Arc.length a
  /\ Arc.time a' = Arc.time a
  /\ Arc.segments a' = Arc.segments a.
Proof. repeat split. Qed.

Lemma arc_runtime_block_value (a : Arc.t) :
  let a' := arc_runtime_block a in
  Arc.segment_theta a' = fdiv (Arc.angular_travel a') (Arc.segments a')
  /\ Arc.segment_linear_travel a' = fdiv (Arc.linear_travel a') (Arc.segments a')
  /\ Arc.segment_count a' = int32_of_float (Arc.segments a')
  /\ GM.move_time (Arc.gm a') = fdiv (Arc.time a') (Arc.segments a').
Proof. repeat split. Qed.

(** [_compute_arc] past the three NaN tests: what remains is the length
    test. *)
Lemma _compute_arc_reached (w : World Planner) :
  let w1 := snd (arc_offsets_block w) in
  let a1 := Arc.set_theta (arc_start_theta (arc w1)) (arc w1) in
  let a2 := arc_length_block
              (arc_travel_block (GM.motion_mode (gm (mach w1)))
                                (arc_end_theta a1) a1) in
  fst (arc_offsets_block w) = STAT_OK ->
  isnan (arc_start_theta (arc w1)) = false ->
  isnan (arc_end_theta (arc w1)) = false ->
  _compute_arc w
  = if flt (Arc.length a2) (CM.arc_segment_len (cm (mach w1)))
    then (STAT_MINIMUM_LENGTH_MOVE_ERROR, set_arc a2 w1)
    else (STAT_OK, set_arc (arc_runtime_block (arc_segments_block w1 a2)) w1).
Proof.
  intros w1 a1 a2 Hoff Hth Hte. unfold _compute_arc, ritorno.
  rewrite Hoff. cbv zeta. fold w1. fold a1.
  change (isnan (Arc.theta a1)) with (isnan (arc_start_theta (arc w1))).
  rewrite Hth.
  change (arc_end_theta a1) with (arc_end_theta (arc w1)) in *.
  rewrite Hte. reflexivity.
Qed.

End BlockFacts.

(** ** Arc preparation: [_compute_arc] and [cm_arc_feed] *)

Section Preparation.

Context {Planner : Type} {E : Collaborators Planner}.

Lemma two_pi_num : two_pi = FNum (2 * PI).
Proof. reflexivity. Qed.


(** The bound is needed by the block itself: from the start angle [-pi]
    to the end angle [pi] the difference is a full turn, not zero, and
    the counterclockwise travel is [2 pi - 2 pi], which is not negative.
    ([_get_theta] returns [M_PI] where [M_PI - theta] rounds to [M_PI].) *)
Lemma arc_travel_block_ccw_full_turn (a : Arc.t) :
  Arc.theta a = fneg M_PI ->
  Arc.angular_travel (arc_travel_block MOTION_MODE_CCW_ARC M_PI a)
  = fsub two_pi two_pi
  /\ flt (fsub two_pi two_pi) (FNum 0) = false.
Proof.
  intros Ht. pose proof PI_RGT_0 as HPI. split.
  - rewrite arc_travel_block_value. rewrite Ht, two_pi_num.
    unfold M_PI, fneg, flt. rewrite (Rltb_false PI (- PI)) by lra.
    unfold fp_ZERO, feq, fsub, fneg, fadd.
    rewrite (Reqb_false (PI + - - PI) 0) by lra.
    cbn [is_ccw]. f_equal. lra.
  - rewrite two_pi_num. simpl. apply Rltb_false. lra.
Qed.

(** Both angles lie in [[-pi, pi)], so the clockwise difference lies in
    [[0, 2 pi)]. *)
Lemma travel_difference_range (t te : R) :
  - PI <= t < PI -> - PI <= te < PI ->
  exists dd,
    fsub (if flt (FNum te) (FNum t) then fadd (FNum te) two_pi else FNum te)
         (FNum t) = FNum dd
    /\ 0 <= dd < 2 * PI.
Proof.
  intros Ht Hte. rewrite two_pi_num. unfold flt, Rltb.
  destruct (Rlt_dec te t) as [Hlt | Hge]; simpl;
    eexists; (split; [reflexivity | lra]).
Qed.

Lemma _compute_arc_frame (w : World Planner) :
  mach (snd (_compute_arc w)) = mach w
  /\ Arc.run_state (arc (snd (_compute_arc w))) = Arc.run_state (arc w).
Proof.
  destruct (arc_offsets_block_frame w) as [Hm Hr].
  unfold _compute_arc, ritorno.
  destruct (fst (arc_offsets_block w)); try (split; assumption).
  cbv zeta.
  repeat match goal with
  | |- context [if ?c then _ else _] => destruct c
  end; (split; [exact Hm |]); try exact Hr.
  - match goal with
    | |- context [arc_travel_block ?m ?te ?a] =>
        change (Arc.run_state (arc_travel_block m te a)
                = Arc.run_state (arc w));
        rewrite (proj1 (arc_travel_block_frame m te a))
    end.
    exact Hr.
  - match goal with
    | |- context [arc_travel_block ?m ?te ?a] =>
        change (Arc.run_state (arc_travel_block m te a)
                = Arc.run_state (arc w));
        rewrite (proj1 (arc_travel_block_frame m te a))
    end.
    exact Hr.
Qed.


(** C6.  On every run of [_compute_arc] that reaches the length
    computation, [length] is [hypot(angular_travel * radius,
    |linear_travel|)]; the run fails with the minimum length error exactly
    when [length] is less than [cm.arc_segment_len]; when [length] is at
    or above it the test passes and [_compute_arc] goes on to return
    [STAT_OK]. *)
Theorem compute_arc_length_check (w : World Planner) :
  let w1 := snd (arc_offsets_block w) in
  let r := _compute_arc w in
  let a' := arc (snd r) in
  fst (arc_offsets_block w) = STAT_OK ->
  isnan (arc_start_theta (arc w1)) = false ->
  isnan (arc_end_theta (arc w1)) = false ->
  Arc.length a'
  = hypot (fmul (Arc.angular_travel a') (Arc.radius a'))
          (fabs (Arc.linear_travel a'))
  /\ (fst r = STAT_MINIMUM_LENGTH_MOVE_ERROR
      <-> flt (Arc.length a') (CM.arc_segment_len (cm (mach w))) = true)
  /\ (fle (CM.arc_segment_len (cm (mach w))) (Arc.length a') = true ->
      fst r = STAT_OK)
  /\ (flt (Arc.length a') (CM.arc_segment_len (cm (mach w))) = false ->
      fst r = STAT_OK).
Proof.
  intros w1 r a' Hoff Hth Hte. subst r a'.
  rewrite (_compute_arc_reached w Hoff Hth Hte). fold w1.
  rewrite <- (proj1 (arc_offsets_block_frame w)). fold w1.
  match goal with
  | |- context [arc_length_block ?x] => set (a2 := arc_length_block x)
  end.
  assert (Hlen : forall b : Arc.t,
             Arc.angular_travel b = Arc.angular_travel a2 ->
             Arc.radius b = Arc.radius a2 ->
             Arc.linear_travel b = Arc.linear_travel a2 ->
             Arc.length b = Arc.length a2 ->
             Arc.length b = hypot (fmul (Arc.angular_travel b) (Arc.radius b))
                                  (fabs (Arc.linear_travel b))).
  { intros b -> -> -> ->. subst a2.
    match goal with
    | |- context [arc_length_block ?x] =>
        exact (proj2 (proj2 (arc_length_block_value x)))
    end. }
  destruct (flt (Arc.length a2) (CM.arc_segment_len (cm (mach w1)))) eqn:Hlt.
  - change (arc (snd (STAT_MINIMUM_LENGTH_MOVE_ERROR, set_arc a2 w1))) with a2.
    split; [now apply (Hlen a2) |]. rewrite Hlt. split; [now split |].
    split; [| discriminate].
    intros Hle. apply fle_flt in Hle. rewrite Hle in Hlt. discriminate.
  - set (a3 := arc_runtime_block (arc_segments_block w1 a2)).
    change (arc (snd (STAT_OK, set_arc a3 w1))) with a3.
    assert (Hl3 : Arc.length a3 = Arc.length a2) by reflexivity.
    split; [apply (Hlen a3); reflexivity |].
    rewrite Hl3, Hlt.
    split; [split; discriminate |]. split; reflexivity.
Qed.

Lemma _compute_arc_ok (w : World Planner) :
  fst (_compute_arc w) = STAT_OK ->
  exists w1 a2,
    mach w1 = mach w
    /\ snd (_compute_arc w)
       = set_arc (arc_runtime_block (arc_segments_block w1 a2)) w1.
Proof.
  pose proof (proj1 (arc_offsets_block_frame w)) as Hm.
  unfold _compute_arc, ritorno.
  destruct (fst (arc_offsets_block w)) eqn:Hoff;
    try (intros Hst; rewrite Hoff in Hst; discriminate).
  cbv zeta.
  repeat match goal with
  | |- context [if ?c then _ else _] => destruct c
  end; try discriminate.
  intros _. eexists; eexists; split; [exact Hm | reflexivity].
Qed.


(** The paths through [cm_arc_feed]: the two traps; a failure of
    [_compute_arc]; a failure of the soft limit test; success, which sets
    [run_state] on the session [_compute_arc] left. *)
Lemma cm_arc_feed_cases (target flags : vec) (i j k radius : float)
    (motion_mode : cmMotionMode) (w : World Planner) :
  let r := cm_arc_feed target flags i j k radius motion_mode w in
  let w0 := arc_feed_setup target flags i j k radius motion_mode w in
  let wc := snd (_compute_arc w0) in
  let soft := cm_test_soft_limits (GM.target (Arc.gm (arc wc))) (mach wc) in
  r = (STAT_GCODE_FEEDRATE_ERROR, w)
  \/ r = (STAT_OK, w)
  \/ (fst (_compute_arc w0) <> STAT_OK /\ r = _compute_arc w0)
  \/ (fst (_compute_arc w0) = STAT_OK /\ soft <> STAT_OK /\ r = (soft, wc))
  \/ (fst (_compute_arc w0) = STAT_OK /\ soft = STAT_OK
      /\ fst r = STAT_OK
      /\ arc (snd r) = Arc.set_run_state MOVE_STATE_RUN (arc wc)).
Proof.
  intros r w0 wc soft. subst r. unfold cm_arc_feed.
  destruct (negb _ && fp_ZERO _); [now left |].
  destruct (_ && fp_ZERO _); [now right; left |].
  right; right. fold w0.
  unfold ritorno, _test_arc_soft_limits. cbn [fst snd]. fold wc. fold soft.
  destruct (fst (_compute_arc w0)) eqn:Hst;
    try (left; split; [discriminate | reflexivity]).
  right.
  destruct soft eqn:Hsoft;
    try (left; split; [reflexivity | split; [discriminate | reflexivity]]).
  right. repeat split.
Qed.


(** In offset mode (radius zero) the offsets block does nothing. *)
Lemma arc_offsets_block_offset_mode (w : World Planner) :
  Arc.radius (arc w) = FNum 0 -> arc_offsets_block w = (STAT_OK, w).
Proof.
  intros H. unfold arc_offsets_block, fp_NOT_ZERO. rewrite H. simpl.
  now rewrite Reqb_true.
Qed.

(** A start angle that is NaN ends [_compute_arc] with the arc
    specification error. *)
Lemma _compute_arc_theta_nan (w : World Planner) :
  fst (arc_offsets_block w) = STAT_OK ->
  isnan (arc_start_theta (arc (snd (arc_offsets_block w)))) = true ->
  fst (_compute_arc w) = STAT_ARC_SPECIFICATION_ERROR.
Proof.
  intros Hoff Hth. unfold _compute_arc, ritorno. rewrite Hoff. cbv zeta.
  change (isnan (Arc.theta (Arc.set_theta ?v ?a))) with (isnan v).
  now rewrite Hth.
Qed.

(** A helix whose linear travel alone reaches the minimum segment length
    passes the length test. *)
Lemma _compute_arc_long_helix (w : World Planner) (y c : R) :
  let w1 := snd (arc_offsets_block w) in
  fst (arc_offsets_block w) = STAT_OK ->
  isnan (arc_start_theta (arc w1)) = false ->
  isnan (arc_end_theta (arc w1)) = false ->
  fsub (GM.target (Arc.gm (arc w1)) (Arc.plane_axis_2 (arc w1)))
       (Arc.position (arc w1) (Arc.plane_axis_2 (arc w1))) = FNum y ->
  CM.arc_segment_len (cm (mach w1)) = FNum c ->
  c <= Rabs y ->
  fst (_compute_arc w) = STAT_OK.
Proof.
  intros w1 Hoff Hth Hte Hlin Hseg Hc.
  rewrite (_compute_arc_reached w Hoff Hth Hte). fold w1.
  match goal with
  | |- context [arc_travel_block ?m ?te ?a] =>
      set (at1 := arc_travel_block m te a);
      destruct (arc_travel_block_frame m te a) as (_ & _ & _ & Hp & Hg & H2);
      fold at1 in Hp, Hg, H2
  end.
  assert (Hlen : Arc.length (arc_length_block at1)
                 = hypot (fmul (Arc.angular_travel at1)
                               (hypot (Arc.offset at1 (Arc.plane_axis_0 at1))
                                      (Arc.offset at1 (Arc.plane_axis_1 at1))))
                         (fabs (fsub (GM.target (Arc.gm at1) (Arc.plane_axis_2 at1))
                                     (Arc.position at1 (Arc.plane_axis_2 at1)))))
    by reflexivity.
  rewrite Hlen, Hp, Hg, H2.
  change (Arc.position (Arc.set_theta ?v ?a)) with (Arc.position a).
  change (Arc.gm (Arc.set_theta ?v ?a)) with (Arc.gm a).
  change (Arc.plane_axis_2 (Arc.set_theta ?v ?a)) with (Arc.plane_axis_2 a).
  rewrite Hlin, Hseg. simpl fabs.
  rewrite hypot_not_below; [reflexivity |].
  rewrite Rabs_Rabsolu. exact Hc.
Qed.

(** C4.  On every successful run of [_compute_arc] the segment count is the
    floor of the minimum of [length / sqrt(4 * chordal_tolerance *
    (2 * radius - chordal_tolerance))], [length / arc_segment_len] and
    [time * MICROSECONDS_PER_MINUTE / MIN_ARC_SEGMENT_USEC], raised to 1
    when it is below; [segment_theta] is [angular_travel / segments] and
    [segment_linear_travel] is [linear_travel / segments]; [segment_count]
    is that count as an [int32_t]; and [segments >= 1].  Hence every call of [cm_arc_feed] that returns
    [STAT_OK] either was the no-motion command (world unchanged) or armed a
    session with [segments >= 1] and these per-segment deltas. *)
Theorem compute_arc_segments :
  (forall w : World Planner,
      fst (_compute_arc w) = STAT_OK ->
      let a' := arc (snd (_compute_arc w)) in
      let c := cm (mach w) in
      Arc.segments a'
      = fmax (ffloor (min3
                (fdiv (Arc.length a')
                      (fsqrt (fmul (fmul (FNum 4) (CM.chordal_tolerance c))
                                   (fsub (fmul (FNum 2) (Arc.radius a'))
                                         (CM.chordal_tolerance c)))))
                (fdiv (Arc.length a') (CM.arc_segment_len c))
                (fdiv (fmul (Arc.time a') MICROSECONDS_PER_MINUTE)
                      MIN_ARC_SEGMENT_USEC)))
             (FNum 1)
      /\ Arc.segment_theta a' = fdiv (Arc.angular_travel a') (Arc.segments a')
      /\ Arc.segment_linear_travel a'
         = fdiv (Arc.linear_travel a') (Arc.segments a')
      /\ Arc.segment_count a' = int32_of_float (Arc.segments a')
      /\ fle (FNum 1) (Arc.segments a') = true)
  /\ (forall (target flags : vec) (i j k radius : float)
             (motion_mode : cmMotionMode) (w : World Planner),
         let r := cm_arc_feed target flags i j k radius motion_mode w in
         let a' := arc (snd r) in
         fst r = STAT_OK ->
         snd r = w
         \/ (Arc.run_state a' = MOVE_STATE_RUN
             /\ fle (FNum 1) (Arc.segments a') = true
             /\ Arc.segment_theta a'
                = fdiv (Arc.angular_travel a') (Arc.segments a')
             /\ Arc.segment_linear_travel a'
                = fdiv (Arc.linear_travel a') (Arc.segments a'))).
Proof.
  assert (Hseg : forall w : World Planner,
             fst (_compute_arc w) = STAT_OK ->
             let a' := arc (snd (_compute_arc w)) in
             let c := cm (mach w) in
             Arc.segments a'
             = fmax (ffloor (min3
                       (fdiv (Arc.length a')
                             (fsqrt (fmul (fmul (FNum 4) (CM.chordal_tolerance c))
                                          (fsub (fmul (FNum 2) (Arc.radius a'))
                                                (CM.chordal_tolerance c)))))
                       (fdiv (Arc.length a') (CM.arc_segment_len c))
                       (fdiv (fmul (Arc.time a') MICROSECONDS_PER_MINUTE)
                             MIN_ARC_SEGMENT_USEC)))
                    (FNum 1)
             /\ Arc.segment_theta a' = fdiv (Arc.angular_travel a') (Arc.segments a')
             /\ Arc.segment_linear_travel a'
                = fdiv (Arc.linear_travel a') (Arc.segments a')
             /\ Arc.segment_count a' = int32_of_float (Arc.segments a')
             /\ fle (FNum 1) (Arc.segments a') = true).
  { intros w Hok a' c. subst a' c.
    destruct (_compute_arc_ok w Hok) as (w1 & a2 & Hm & ->).
    rewrite <- Hm.
    change (arc (set_arc ?a w1)) with a.
    set (a3 := arc_segments_block w1 a2).
    assert (Hs : Arc.segments (arc_runtime_block a3)
                 = fmax (ffloor (min3
                       (fdiv (Arc.length a3)
                             (fsqrt (fmul (fmul (FNum 4) (CM.chordal_tolerance (cm (mach w1))))
                                          (fsub (fmul (FNum 2) (Arc.radius a3))
                                                (CM.chordal_tolerance (cm (mach w1)))))))
                       (fdiv (Arc.length a3) (CM.arc_segment_len (cm (mach w1))))
                       (fdiv (fmul (Arc.time a3) MICROSECONDS_PER_MINUTE)
                             MIN_ARC_SEGMENT_USEC)))
                    (FNum 1))
      by exact (arc_segments_block_value w1 a2).
    split; [exact Hs |].
    split; [exact (proj1 (arc_runtime_block_value a3)) |].
    split; [exact (proj1 (proj2 (arc_runtime_block_value a3))) |].
    split; [exact (proj1 (proj2 (proj2 (arc_runtime_block_value a3)))) |].
    rewrite Hs. apply fmax_ge_1. }
  split; [exact Hseg |].
  intros target flags i j k radius motion_mode w r a' Hok. subst a'.
  destruct (cm_arc_feed_cases target flags i j k radius motion_mode w)
    as [Hr | [Hr | [(Hne & Hr) | [(Hc & Hne & Hr) | (Hc & _ & _ & Ha)]]]];
    fold r in Hr || fold r in Ha.
  - rewrite Hr in Hok. discriminate.
  - left. now rewrite Hr.
  - rewrite Hr in Hok. contradiction.
  - rewrite Hr in Hok. simpl in Hok. contradiction.
  - right. rewrite Ha.
    destruct (Hseg _ Hc) as (_ & Hst & Hsl & _ & Hge).
    split; [reflexivity |]. split; [exact Hge |]. split; [exact Hst | exact Hsl].
Qed.


End Preparation.

(** ** The properties on the demo machine *)

Lemma helix_offsets :
  arc_offsets_block demo_world_helix = (STAT_OK, demo_world_helix).
Proof. now apply arc_offsets_block_offset_mode. Qed.

Lemma helix_theta : arc_start_theta (arc demo_world_helix) = FNum (- PI).
Proof.
  change (arc_start_theta (arc demo_world_helix))
    with (_get_theta (FNum (- 0)) (FNum (- 5))).
  apply _get_theta_below; lra.
Qed.

Lemma helix_theta_end : arc_end_theta (arc demo_world_helix) = FNum (- PI).
Proof.
  change (arc_end_theta (arc demo_world_helix))
    with (_get_theta (FNum (0 + - 0 + - 0)) (FNum (0 + - 5 + - 0))).
  apply _get_theta_below; lra.
Qed.

Lemma helix_reached :
  fst (arc_offsets_block demo_world_helix) = STAT_OK
  /\ isnan (arc_start_theta (arc (snd (arc_offsets_block demo_world_helix)))) = false
  /\ isnan (arc_end_theta (arc (snd (arc_offsets_block demo_world_helix)))) = false.
Proof.
  rewrite helix_offsets. cbn [fst snd]. rewrite helix_theta, helix_theta_end.
  now repeat split.
Defined.

Lemma helix_ok : fst (_compute_arc (E := demo) demo_world_helix) = STAT_OK.
Proof.
  destruct helix_reached as (H1 & H2 & H3).
  apply (_compute_arc_long_helix (E := demo) demo_world_helix (10 + - 0) (1 / 10) H1 H2 H3).
  - now rewrite helix_offsets.
  - now rewrite helix_offsets.
  - rewrite Rabs_pos_eq; lra.
Defined.


(** C6 on the full-turn helix. *)
Lemma compute_arc_length_check_witness :
  (fst (arc_offsets_block demo_world_helix) = STAT_OK
   /\ isnan (arc_start_theta (arc (snd (arc_offsets_block demo_world_helix)))) = false
   /\ isnan (arc_end_theta (arc (snd (arc_offsets_block demo_world_helix)))) = false)
  /\ let a' := arc (snd (_compute_arc (E := demo) demo_world_helix)) in
     Arc.length a'
     = hypot (fmul (Arc.angular_travel a') (Arc.radius a'))
             (fabs (Arc.linear_travel a')).
Proof.
  split; [exact helix_reached |].
  destruct helix_reached as (H1 & H2 & H3).
  exact (proj1 (compute_arc_length_check (E := demo) demo_world_helix H1 H2 H3)).
Defined.

(** C4 on the full-turn helix: [_compute_arc] succeeds and leaves at least
    one segment. *)
Lemma compute_arc_segments_witness :
  fst (_compute_arc (E := demo) demo_world_helix) = STAT_OK
  /\ fle (FNum 1)
         (Arc.segments (arc (snd (_compute_arc (E := demo) demo_world_helix))))
     = true.
Proof.
  split; [exact helix_ok |].
  exact (proj2 (proj2 (proj2 (proj2
           (proj1 (compute_arc_segments (E := demo)) demo_world_helix helix_ok))))).
Defined.





(** ** Radius mode: the formula computed against the formula documented *)

Lemma offsets_from_radius_status {Planner : Type} (w : World Planner) :
  let x := fsub (GM.target (gm (mach w)) (Arc.plane_axis_0 (arc w)))
                (GMX.position (gmx (mach w)) (Arc.plane_axis_0 (arc w))) in
  let y := fsub (GM.target (gm (mach w)) (Arc.plane_axis_1 (arc w)))
                (GMX.position (gmx (mach w)) (Arc.plane_axis_1 (arc w))) in
  fst (_compute_arc_offsets_from_radius w)
  = if isnan (h_x2_div_d_computed (Arc.arc_radius (arc w)) x y)
    then STAT_FLOATING_POINT_ERROR else STAT_OK.
Proof.
  unfold _compute_arc_offsets_from_radius, h_x2_div_d_computed. cbv zeta.
  now destruct (isnan _).
Qed.

(** The computed expression is a number whenever [4 r^2 - (x^2 - y^2)] is
    not negative and the chord is not zero. *)
Lemma h_x2_div_d_computed_num (r x y : R) :
  0 <= 4 * (r * r) + - (x * x + - (y * y)) ->
  0 < x * x + y * y ->
  exists h, h_x2_div_d_computed (FNum r) (FNum x) (FNum y) = FNum h.
Proof.
  intros Hd Hc. unfold h_x2_div_d_computed, square. simpl.
  rewrite Rltb_false by lra. simpl.
  rewrite Reqb_false by (pose proof (sqrt_lt_R0 _ Hc); lra).
  eexists; reflexivity.
Qed.

(** The documented expression is NaN whenever the radius is smaller than
    half the chord. *)
Lemma h_x2_div_d_documented_nan (r x y : R) :
  4 * (r * r) < x * x + y * y ->
  h_x2_div_d_documented (FNum r) (FNum x) (FNum y) = FNaN.
Proof.
  intros Hd. unfold h_x2_div_d_documented, square. simpl.
  now rewrite Rltb_true by lra.
Qed.

(** C1, the code at a failing input.  Radius 1 for a chord of length 10
    from the origin to [(0, 10)]: the radius is smaller than half the
    chord and the documented [h_x2_div_d] is NaN, yet
    [_compute_arc_offsets_from_radius] returns [STAT_OK] and writes the
    offsets (5 on the second plane axis, 0 on the third). *)
Theorem offsets_from_radius_accepts_short_radius :
  let r := _compute_arc_offsets_from_radius (demo_world_radius 1 0 10) in
  h_x2_div_d_documented (FNum 1) (FNum (0 + - 0)) (FNum (10 + - 0)) = FNaN
  /\ fst r = STAT_OK
  /\ Arc.offset (arc (snd r)) AXIS_Y = FNum 5
  /\ Arc.offset (arc (snd r)) AXIS_Z = FNum 0.
Proof.
  intros r. subst r.
  destruct (h_x2_div_d_computed_num 1 (0 + - 0) (10 + - 0)) as (h & Hh);
    [lra | lra |].
  split; [apply h_x2_div_d_documented_nan; lra |].
  split.
  { rewrite offsets_from_radius_status.
    match goal with
    | |- (if isnan ?e then _ else _) = _ =>
        change e with (h_x2_div_d_computed (FNum 1) (FNum (0 + - 0)) (FNum (10 + - 0)))
    end.
    now rewrite Hh. }
  unfold _compute_arc_offsets_from_radius. cbv zeta.
  match goal with
  | |- context [if isnan ?e then _ else _] =>
      change e with (h_x2_div_d_computed (FNum 1) (FNum (0 + - 0)) (FNum (10 + - 0)))
  end.
  rewrite Hh. cbn [isnan].
  change (is_ccw (GM.motion_mode (gm (mach (demo_world_radius 1 0 10)))))
    with false.
  change (Arc.arc_radius (arc (demo_world_radius 1 0 10))) with (FNum 1).
  split.
  - cbn. rewrite (Rltb_false 1 0) by lra. simpl.
    rewrite (Reqb_false 2 0) by lra. f_equal. lra.
  - reflexivity.
Qed.

(** * Further properties of the functions of [plan_arc.c] *)

(** ** More facts about the arithmetic *)

Lemma flt_irrefl (a : float) : flt a a = false.
Proof.
  destruct a as [| s | r]; simpl; [reflexivity | now destruct s |].
  apply Rltb_false. lra.
Qed.

(** If [m < t] and [c] is not above [m], then [c] is not above [t]. *)
Lemma flt_above (m t c : float) :
  flt m t = true -> flt m c = false -> flt t c = false.
Proof.
  destruct m as [| sm | m], t as [| st | t], c as [| sc | c]; simpl;
    try discriminate; try reflexivity;
    repeat match goal with
           | s : bool |- _ => destruct s
           end; simpl; try discriminate; try reflexivity;
    try (intros; congruence).
  intros H1 H2. apply Rltb_iff in H1. apply Rltb_false. intros H3.
  assert (~ m < c) by (intros C; now rewrite (Rltb_true _ _ C) in H2).
  lra.
Qed.

(** One step of "retain the slowest": a candidate that was not above the
    time kept so far is not above the time kept after the step, and
    neither is the candidate of the step. *)
Lemma slowest_step (tmp move_time c : float) :
  let move_time' := if fgt tmp move_time then tmp else move_time in
  fgt tmp move_time' = false
  /\ (fgt c move_time = false -> fgt c move_time' = false).
Proof.
  unfold fgt. cbv zeta. destruct (flt move_time tmp) eqn:H.
  - split; [apply flt_irrefl |]. intros Hc. exact (flt_above _ _ _ H Hc).
  - split; [exact H | trivial].
Qed.

(** ** The time estimate [_get_arc_time] *)

Section ArcTime.

Context {Planner : Type}.

(** X1.  [_get_arc_time] returns one of its four candidate times (the time
    at the programmed feed rate, or the inverse feed rate time, and the
    three times at the maximum feed rate of a plane axis), and none of
    the four is greater than the time returned. *)
Theorem get_arc_time_slowest (w : World Planner)
    (linear_travel angular_travel radius : float) :
  let a := arc w in
  let m := mach w in
  let planar_travel := fabs (fmul angular_travel radius) in
  let base :=
    if GM.inverse_feed_rate_mode (gm m)
    then GMX.inverse_feed_rate (gmx m)
    else fdiv (fsqrt (fadd (square planar_travel) (square linear_travel)))
              (GM.feed_rate (gm m)) in
  let t0 := fdiv planar_travel
                 (Axis.feedrate_max (CM.a (cm m) (Arc.plane_axis_0 a))) in
  let t1 := fdiv planar_travel
                 (Axis.feedrate_max (CM.a (cm m) (Arc.plane_axis_1 a))) in
  let t2 := fabs (fdiv linear_travel
                       (Axis.feedrate_max (CM.a (cm m) (Arc.plane_axis_2 a)))) in
  let t := _get_arc_time w linear_travel angular_travel radius in
  (t = base \/ t = t0 \/ t = t1 \/ t = t2)
  /\ fgt base t = false
  /\ fgt t0 t = false
  /\ fgt t1 t = false
  /\ fgt t2 t = false.
Proof.
  intros a m planar_travel base t0 t1 t2 t.
  set (m0 := if fgt t0 base then t0 else base).
  set (m1 := if fgt t1 m0 then t1 else m0).
  set (m2 := if fgt t2 m1 then t2 else m1).
  assert (Ht : t = m2) by reflexivity.
  destruct (slowest_step t0 base base) as [H00 H0b].
  destruct (slowest_step t1 m0 base) as [H11 H1b].
  destruct (slowest_step t1 m0 t0) as [_ H10].
  destruct (slowest_step t2 m1 base) as [H22 H2b].
  destruct (slowest_step t2 m1 t0) as [_ H20].
  destruct (slowest_step t2 m1 t1) as [_ H21].
  fold m0 in H00, H0b. fold m1 in H11, H1b, H10. fold m2 in H22, H2b, H20, H21.
  assert (Hbb : fgt base base = false) by apply flt_irrefl.
  rewrite Ht. split.
  - subst m2 m1 m0.
    destruct (fgt t2 _); [now right; right; right |].
    destruct (fgt t1 _); [now right; right; left |].
    destruct (fgt t0 _); [now right; left | now left].
  - repeat split; auto.
Qed.

End ArcTime.

(** ** The segment emitter over several calls *)

Section Emitter.

Context {Planner : Type} {E : Collaborators Planner}.

(** What one emitting call does to the session. *)
Lemma cm_arc_callback_emit (w : World Planner) :
  let a := arc w in
  let r := cm_arc_callback w in
  let a' := arc (snd r) in
  let count := wrap_int32 (Arc.segment_count a - 1) in
  Arc.run_state a <> MOVE_STATE_OFF ->
  (PLANNER_BUFFER_HEADROOM <= mp_get_planner_buffers_available (mach w))%Z ->
  (GM.target (Arc.gm a') = next_segment_target a
   /\ Arc.position a' = next_segment_target a
   /\ Arc.theta a' = fadd (Arc.theta a) (Arc.segment_theta a)
   /\ Arc.segment_count a' = count
   /\ fst r = (if (count >? 0)%Z then STAT_EAGAIN else STAT_OK)
   /\ Arc.run_state a'
      = (if (count >? 0)%Z then Arc.run_state a else MOVE_STATE_OFF))
  /\ (Arc.radius a' = Arc.radius a
      /\ Arc.center_0 a' = Arc.center_0 a
      /\ Arc.center_1 a' = Arc.center_1 a
      /\ Arc.segment_theta a' = Arc.segment_theta a
      /\ Arc.segment_linear_travel a' = Arc.segment_linear_travel a
      /\ Arc.plane_axis_0 a' = Arc.plane_axis_0 a
      /\ Arc.plane_axis_1 a' = Arc.plane_axis_1 a
      /\ Arc.plane_axis_2 a' = Arc.plane_axis_2 a
      /\ Arc.segments a' = Arc.segments a
      /\ Arc.angular_travel a' = Arc.angular_travel a
      /\ Arc.linear_travel a' = Arc.linear_travel a
      /\ Arc.length a' = Arc.length a
      /\ Arc.time a' = Arc.time a
      /\ Arc.offset a' = Arc.offset a
      /\ Arc.arc_radius a' = Arc.arc_radius a).
Proof.
  intros a r a' count H Hge. subst r a' a count.
  assert (Hrs : Arc.run_state (arc w) = MOVE_STATE_RUN)
    by (destruct (Arc.run_state (arc w)); congruence).
  apply Z.ltb_ge in Hge.
  unfold cm_arc_callback. rewrite Hrs, Hge.
  record_simpl.
  match goal with
  | |- context [if (?c >? 0)%Z then _ else _] => destruct (c >? 0)%Z
  end; record_simpl; (split; [| repeat split]);
    (split; [reflexivity |]); (split; [reflexivity |]);
    (split; [reflexivity |]); (split; [reflexivity |]);
    (split; [reflexivity |]); now rewrite ?Hrs.
Qed.

(** X2.  [cm_arc_callback] never changes the geometry of the session:
    whatever the path taken, the radius, the centre, the two per-segment
    deltas, the three plane axes, the number of segments, the travels, the
    length, the time, the offsets and [arc_radius] are after the call what
    they were before. *)
Theorem cm_arc_callback_keeps_geometry (w : World Planner) :
  let a := arc w in
  let a' := arc (snd (cm_arc_callback w)) in
  Arc.radius a' = Arc.radius a
  /\ Arc.center_0 a' = Arc.center_0 a
  /\ Arc.center_1 a' = Arc.center_1 a
  /\ Arc.segment_theta a' = Arc.segment_theta a
  /\ Arc.segment_linear_travel a' = Arc.segment_linear_travel a
  /\ Arc.plane_axis_0 a' = Arc.plane_axis_0 a
  /\ Arc.plane_axis_1 a' = Arc.plane_axis_1 a
  /\ Arc.plane_axis_2 a' = Arc.plane_axis_2 a
  /\ Arc.segments a' = Arc.segments a
  /\ Arc.angular_travel a' = Arc.angular_travel a
  /\ Arc.linear_travel a' = Arc.linear_travel a
  /\ Arc.length a' = Arc.length a
  /\ Arc.time a' = Arc.time a
  /\ Arc.offset a' = Arc.offset a
  /\ Arc.arc_radius a' = Arc.arc_radius a.
Proof.
  intros a a'. subst a a'.
  destruct (Arc.run_state (arc w)) eqn:Hrs.
  - unfold cm_arc_callback. rewrite Hrs. cbn [snd]. repeat split.
  - destruct (Z.ltb_spec (mp_get_planner_buffers_available (mach w))
                         PLANNER_BUFFER_HEADROOM) as [Hlt | Hge].
    + unfold cm_arc_callback. rewrite Hrs.
      rewrite (proj2 (Z.ltb_lt _ _) Hlt). cbn [snd]. repeat split.
    + apply cm_arc_callback_emit; [rewrite Hrs; discriminate | exact Hge].
Qed.

(** X3.  Every point [cm_arc_callback] emits lies on the circle of the
    session: with three distinct plane axes and a centre, radius, angle
    and angular step that are numbers, the two plane coordinates of the
    submitted target are numbers at distance [radius] from the centre,
    and the position is moved to that target. *)
Theorem cm_arc_callback_on_circle (w : World Planner) (c0 c1 r th dth : R) :
  let a := arc w in
  let a' := arc (snd (cm_arc_callback w)) in
  Arc.run_state a <> MOVE_STATE_OFF ->
  (PLANNER_BUFFER_HEADROOM <= mp_get_planner_buffers_available (mach w))%Z ->
  Arc.plane_axis_0 a <> Arc.plane_axis_1 a ->
  Arc.plane_axis_0 a <> Arc.plane_axis_2 a ->
  Arc.plane_axis_1 a <> Arc.plane_axis_2 a ->
  Arc.center_0 a = FNum c0 -> Arc.center_1 a = FNum c1 ->
  Arc.radius a = FNum r ->
  Arc.theta a = FNum th -> Arc.segment_theta a = FNum dth ->
  exists p0 p1,
    GM.target (Arc.gm a') (Arc.plane_axis_0 a) = FNum p0
    /\ GM.target (Arc.gm a') (Arc.plane_axis_1 a) = FNum p1
    /\ (p0 - c0) * (p0 - c0) + (p1 - c1) * (p1 - c1) = r * r
    /\ Arc.position a' = GM.target (Arc.gm a').
Proof.
  intros a a' Hrs Hge H01 H02 H12 Hc0 Hc1 Hr Hth Hdth. subst a a'.
  destruct (cm_arc_callback_emit w Hrs Hge) as ((Htgt & Hpos & _) & _).
  destruct (next_segment_target_axes (arc w) H01 H02 H12) as (E0 & E1 & _).
  rewrite Hc0, Hr, Hth, Hdth in E0. rewrite Hc1, Hr, Hth, Hdth in E1.
  simpl in E0, E1.
  exists (c0 + sin (th + dth) * r), (c1 + cos (th + dth) * r).
  rewrite Htgt, Hpos. repeat split; try assumption.
  pose proof (sin2_cos2 (th + dth)) as Hsc. unfold Rsqr in Hsc.
  replace (c0 + sin (th + dth) * r - c0) with (sin (th + dth) * r) by ring.
  replace (c1 + cos (th + dth) * r - c1) with (cos (th + dth) * r) by ring.
  replace (sin (th + dth) * r * (sin (th + dth) * r)
           + cos (th + dth) * r * (cos (th + dth) * r))
    with ((sin (th + dth) * sin (th + dth) + cos (th + dth) * cos (th + dth))
          * (r * r)) by ring.
  rewrite Hsc. ring.
Qed.

(** X4.  After [cm_abort_arc], and after a call of [cm_arc_callback] that
    returned [STAT_OK], the next call of [cm_arc_callback] returns
    [STAT_NOOP] and changes nothing. *)
Theorem cm_arc_callback_after_stop (w : World Planner) :
  cm_arc_callback (cm_abort_arc w) = (STAT_NOOP, cm_abort_arc w)
  /\ (fst (cm_arc_callback w) = STAT_OK ->
      cm_arc_callback (snd (cm_arc_callback w))
      = (STAT_NOOP, snd (cm_arc_callback w))).
Proof.
  split; [reflexivity |].
  intros Hok.
  assert (Hoff : Arc.run_state (arc (snd (cm_arc_callback w))) = MOVE_STATE_OFF).
  { destruct (Arc.run_state (arc w)) eqn:Hrs.
    - unfold cm_arc_callback in Hok. rewrite Hrs in Hok. discriminate.
    - destruct (Z.ltb_spec (mp_get_planner_buffers_available (mach w))
                           PLANNER_BUFFER_HEADROOM) as [Hlt | Hge].
      + unfold cm_arc_callback in Hok. rewrite Hrs in Hok.
        rewrite (proj2 (Z.ltb_lt _ _) Hlt) in Hok. discriminate.
      + assert (Hrun : Arc.run_state (arc w) <> MOVE_STATE_OFF)
          by (rewrite Hrs; discriminate).
        destruct (cm_arc_callback_emit w Hrun Hge)
          as ((_ & _ & _ & _ & Hst & Hrs') & _).
        rewrite Hrs'. rewrite Hst in Hok.
        destruct (_ >? 0)%Z; [discriminate | reflexivity]. }
  unfold cm_arc_callback at 1. now rewrite Hoff.
Qed.

(** A running session with [S k] segments to go, under a planner that
    always has headroom: [k] calls that emit and go on, one that emits
    and stops. *)
Lemma cm_arc_callback_n_run (k : nat) (w : World Planner) :
  (forall m, (PLANNER_BUFFER_HEADROOM <= mp_get_planner_buffers_available m)%Z) ->
  Arc.run_state (arc w) <> MOVE_STATE_OFF ->
  Arc.segment_count (arc w) = Z.of_nat (S k) ->
  (Z.of_nat (S k) <= 2147483647)%Z ->
  let r := cm_arc_callback_n (S k) w in
  fst r = repeat STAT_EAGAIN k ++ [STAT_OK]
  /\ Arc.run_state (arc (snd r)) = MOVE_STATE_OFF
  /\ Arc.segment_count (arc (snd r)) = 0%Z.
Proof.
  intros Havail. revert w. induction k as [| k IH]; intros w Hrs Hcount Hmax r;
    subst r.
  - destruct (cm_arc_callback_emit w Hrs (Havail _))
      as ((_ & _ & _ & Hc & Hst & Hrs') & _).
    rewrite Hcount in Hc, Hst, Hrs'.
    change (wrap_int32 (Z.of_nat 1 - 1)) with 0%Z in Hc, Hst, Hrs'.
    change (cm_arc_callback_n 1 w)
      with ([fst (cm_arc_callback w)], snd (cm_arc_callback w)).
    cbn [fst snd repeat app].
    rewrite Hst. change (0 >? 0)%Z with false in *.
    split; [reflexivity |]. split; [exact Hrs' | exact Hc].
  - destruct (cm_arc_callback_emit w Hrs (Havail _))
      as ((_ & _ & _ & Hc & Hst & Hrs') & _).
    assert (Hw : wrap_int32 (Arc.segment_count (arc w) - 1) = Z.of_nat (S k)).
    { rewrite Hcount. unfold wrap_int32. rewrite Z.mod_small by lia. lia. }
    rewrite Hw in Hc, Hst, Hrs'.
    assert (Hpos : (Z.of_nat (S k) >? 0)%Z = true) by (apply Z.gtb_lt; lia).
    rewrite Hpos in Hst, Hrs'.
    assert (Hrs2 : Arc.run_state (arc (snd (cm_arc_callback w))) <> MOVE_STATE_OFF)
      by now rewrite Hrs'.
    destruct (IH (snd (cm_arc_callback w)) Hrs2 Hc ltac:(lia)) as (H1 & H2 & H3).
    change (cm_arc_callback_n (S (S k)) w)
      with (fst (cm_arc_callback w)
              :: fst (cm_arc_callback_n (S k) (snd (cm_arc_callback w))),
            snd (cm_arc_callback_n (S k) (snd (cm_arc_callback w)))).
    cbn [fst snd]. rewrite Hst, H1.
    split; [reflexivity |]. split; [exact H2 | exact H3].
Qed.

(** X5.  With a planner that always has headroom, a running session whose
    segment count is [c] (at least 1, at most [INT32_MAX]) is finished by
    exactly [c] calls of [cm_arc_callback]: the first [c - 1] return
    [STAT_EAGAIN], the last returns [STAT_OK], and then the session is off
    with a segment count of 0. *)
Theorem cm_arc_callback_n_completes (c : Z) (w : World Planner) :
  (forall m, (PLANNER_BUFFER_HEADROOM <= mp_get_planner_buffers_available m)%Z) ->
  Arc.run_state (arc w) <> MOVE_STATE_OFF ->
  Arc.segment_count (arc w) = c ->
  (1 <= c <= 2147483647)%Z ->
  let r := cm_arc_callback_n (Z.to_nat c) w in
  fst r = repeat STAT_EAGAIN (Z.to_nat c - 1) ++ [STAT_OK]
  /\ Arc.run_state (arc (snd r)) = MOVE_STATE_OFF
  /\ Arc.segment_count (arc (snd r)) = 0%Z.
Proof.
  intros Havail Hrs Hcount Hc r. subst r.
  set (k := (Z.to_nat c - 1)%nat).
  replace (Z.to_nat c) with (S k) by (subst k; lia).
  apply cm_arc_callback_n_run.
  - exact Havail.
  - exact Hrs.
  - rewrite Hcount. subst k. lia.
  - subst k. lia.
Qed.

End Emitter.

(** X3 on the running demo session: the first point emitted is at
    distance 5 from the centre [(0, 5)]. *)
Lemma cm_arc_callback_on_circle_witness :
  exists p0 p1,
    GM.target (Arc.gm (arc (snd (cm_arc_callback (E := demo) demo_world_running))))
              AXIS_X = FNum p0
    /\ GM.target (Arc.gm (arc (snd (cm_arc_callback (E := demo) demo_world_running))))
                 AXIS_Y = FNum p1
    /\ (p0 - 0) * (p0 - 0) + (p1 - 5) * (p1 - 5) = 5 * 5.
Proof.
  destruct (cm_arc_callback_on_circle (E := demo) demo_world_running
              0 5 5 (- PI) (PI / 6))
    as (p0 & p1 & H0 & H1 & Hc & _);
    try reflexivity; try discriminate.
  exists p0, p1. split; [exact H0 |]. split; [exact H1 | exact Hc].
Defined.

(** X4 on the demo session with one segment to go: the call returns
    [STAT_OK] and the next one is a no-op. *)
Lemma cm_arc_callback_after_stop_witness :
  fst (cm_arc_callback (E := demo) (demo_world_counting 1)) = STAT_OK
  /\ fst (cm_arc_callback (E := demo)
            (snd (cm_arc_callback (E := demo) (demo_world_counting 1))))
     = STAT_NOOP.
Proof.
  assert (Hok : fst (cm_arc_callback (E := demo) (demo_world_counting 1)) = STAT_OK).
  { destruct (cm_arc_callback_emit (E := demo) (demo_world_counting 1))
      as ((_ & _ & _ & _ & Hst & _) & _);
      [discriminate | vm_compute; discriminate |].
    exact Hst. }
  split; [exact Hok |].
  now rewrite (proj2 (cm_arc_callback_after_stop (E := demo) (demo_world_counting 1)) Hok).
Defined.

(** X5 on the demo session with three segments to go and the roomy
    planner. *)
Lemma cm_arc_callback_n_completes_witness :
  fst (cm_arc_callback_n (E := demo_roomy) 3 demo_world_running)
  = [STAT_EAGAIN; STAT_EAGAIN; STAT_OK]
  /\ Arc.run_state (arc (snd (cm_arc_callback_n (E := demo_roomy) 3 demo_world_running)))
     = MOVE_STATE_OFF.
Proof.
  destruct (cm_arc_callback_n_completes (E := demo_roomy) 3%Z demo_world_running)
    as (H1 & H2 & _).
  - intros m. vm_compute. discriminate.
  - discriminate.
  - reflexivity.
  - lia.
  - split; [exact H1 | exact H2].
Defined.

(** ** When the angle is undefined *)

Lemma _get_theta_defined (x y : R) :
  x <> 0 \/ y <> 0 -> exists t, _get_theta (FNum x) (FNum y) = FNum t.
Proof.
  intros Hxy.
  destruct (_get_theta_range (FNum x) (FNum y)) as [H | (t & H & _)];
    [| now exists t].
  exfalso. revert H. unfold _get_theta, M_PI; simpl.
  destruct (Req_dec_T y 0) as [-> | Hy].
  - rewrite (Reqb_true (Rabs 0) 0) by apply Rabs_R0.
    rewrite (Reqb_false x 0) by (destruct Hxy; [assumption | contradiction]).
    simpl.
    repeat match goal with
    | |- context [if ?c then _ else _] => destruct c; simpl
    end; discriminate.
  - rewrite Reqb_false by (apply Rabs_no_R0; exact Hy). simpl.
    repeat match goal with
    | |- context [if ?c then _ else _] => destruct c
    end; discriminate.
Qed.


Section SpecificationError.

Context {Planner : Type} {E : Collaborators Planner}.

(** Past the offsets block, [_compute_arc] returns the arc specification
    error exactly when one of the two angles is NaN. *)
Lemma _compute_arc_specification_error_iff (w : World Planner) :
  let w1 := snd (arc_offsets_block w) in
  fst (arc_offsets_block w) = STAT_OK ->
  (fst (_compute_arc w) = STAT_ARC_SPECIFICATION_ERROR
   <-> isnan (arc_start_theta (arc w1)) = true
       \/ isnan (arc_end_theta (arc w1)) = true).
Proof.
  intros w1 Hoff.
  destruct (isnan (arc_start_theta (arc w1))) eqn:Hth.
  - split; [now left |]. intros _. now apply _compute_arc_theta_nan.
  - destruct (isnan (arc_end_theta (arc w1))) eqn:Hte.
    + split; [now right |]. intros _.
      unfold _compute_arc, ritorno. rewrite Hoff. cbv zeta. fold w1.
      change (isnan (Arc.theta (Arc.set_theta ?v ?a))) with (isnan v).
      rewrite Hth.
      change (arc_end_theta (Arc.set_theta ?v ?a)) with (arc_end_theta a).
      now rewrite Hte.
    + rewrite (_compute_arc_reached w Hoff Hth Hte).
      split; [| intros [H | H]; discriminate].
      match goal with
      | |- context [if ?c then _ else _] => destruct c
      end; discriminate.
Qed.


End SpecificationError.


(** ** The angular travel *)

Section Travel.

Context {Planner : Type} {E : Collaborators Planner}.

(** The angular travel [_compute_arc] leaves, once both angles are known. *)
Lemma _compute_arc_travel (w : World Planner) (t te : R) :
  let w1 := snd (arc_offsets_block w) in
  let ccw := is_ccw (GM.motion_mode (gm (mach w))) in
  let d := fsub (if flt (FNum te) (FNum t) then fadd (FNum te) two_pi else FNum te)
                (FNum t) in
  fst (arc_offsets_block w) = STAT_OK ->
  arc_start_theta (arc w1) = FNum t ->
  arc_end_theta (arc w1) = FNum te ->
  Arc.angular_travel (arc (snd (_compute_arc w)))
  = if fp_ZERO d
    then (if ccw then fsub d two_pi else two_pi)
    else (if ccw then fsub d two_pi else d).
Proof.
  intros w1 ccw d Hoff Ht Hte.
  assert (Hth : isnan (arc_start_theta (arc w1)) = false) by now rewrite Ht.
  assert (Hthe : isnan (arc_end_theta (arc w1)) = false) by now rewrite Hte.
  rewrite (_compute_arc_reached w Hoff Hth Hthe). fold w1.
  change (arc_end_theta (Arc.set_theta ?v ?a)) with (arc_end_theta a).
  rewrite Ht, Hte.
  set (a1 := Arc.set_theta (FNum t) (arc w1)).
  set (at1 := arc_travel_block (GM.motion_mode (gm (mach w1))) (FNum te) a1).
  assert (Hval : Arc.angular_travel at1
                 = if fp_ZERO d
                   then (if ccw then fsub d two_pi else two_pi)
                   else (if ccw then fsub d two_pi else d)).
  { subst at1 ccw. rewrite <- (proj1 (arc_offsets_block_frame w)). fold w1.
    exact (arc_travel_block_value (GM.motion_mode (gm (mach w1))) (FNum te) a1). }
  rewrite <- Hval.
  match goal with
  | |- context [if ?c then _ else _] => destruct c
  end; reflexivity.
Qed.

(** The clockwise difference of two angles of [[-pi, pi]] is a number that
    is not negative: this needs the order of the numbers only. *)
Lemma travel_difference_nonneg (t te : R) :
  - PI <= t <= PI -> - PI <= te <= PI ->
  exists dd,
    fsub (if flt (FNum te) (FNum t) then fadd (FNum te) two_pi else FNum te)
         (FNum t) = FNum dd
    /\ 0 <= dd.
Proof.
  intros Ht Hte. rewrite two_pi_num. unfold flt, Rltb.
  destruct (Rlt_dec te t) as [Hlt | Hge]; simpl;
    eexists; (split; [reflexivity | lra]).
Qed.

(** X7.  On every run of [_compute_arc] past the NaN tests the angular
    travel is a number; unless the mode is counterclockwise it is greater
    than zero, never zero and never negative; when the mode is
    counterclockwise it is not below [-2 pi]. *)
Theorem compute_arc_travel_range (w : World Planner) :
  let w1 := snd (arc_offsets_block w) in
  let a' := arc (snd (_compute_arc w)) in
  fst (arc_offsets_block w) = STAT_OK ->
  isnan (arc_start_theta (arc w1)) = false ->
  isnan (arc_end_theta (arc w1)) = false ->
  exists t,
    Arc.angular_travel a' = FNum t
    /\ (is_ccw (GM.motion_mode (gm (mach w))) = false -> 0 < t)
    /\ (is_ccw (GM.motion_mode (gm (mach w))) = true -> - (2 * PI) <= t).
Proof.
  intros w1 a' Hoff Hth Hte. subst a'.
  pose proof PI_RGT_0 as HPI.
  destruct (_get_theta_range
              (fneg (Arc.offset (arc w1) (Arc.plane_axis_0 (arc w1))))
              (fneg (Arc.offset (arc w1) (Arc.plane_axis_1 (arc w1)))))
    as [Hn | (t & Ht & Hbt)];
    [change (arc_start_theta (arc w1) = FNaN) in Hn; rewrite Hn in Hth;
     discriminate |].
  change (arc_start_theta (arc w1) = FNum t) in Ht.
  destruct (_get_theta_range
              (fsub (fsub (GM.target (Arc.gm (arc w1)) (Arc.plane_axis_0 (arc w1)))
                          (Arc.offset (arc w1) (Arc.plane_axis_0 (arc w1))))
                    (Arc.position (arc w1) (Arc.plane_axis_0 (arc w1))))
              (fsub (fsub (GM.target (Arc.gm (arc w1)) (Arc.plane_axis_1 (arc w1)))
                          (Arc.offset (arc w1) (Arc.plane_axis_1 (arc w1))))
                    (Arc.position (arc w1) (Arc.plane_axis_1 (arc w1)))))
    as [Hn | (te & Hte' & Hbte)];
    [change (arc_end_theta (arc w1) = FNaN) in Hn; rewrite Hn in Hte;
     discriminate |].
  change (arc_end_theta (arc w1) = FNum te) in Hte'.
  rewrite (_compute_arc_travel w t te Hoff Ht Hte').
  destruct (travel_difference_nonneg t te) as (dd & Hdd & Hrange); [lra | lra |].
  rewrite Hdd, two_pi_num.
  unfold fp_ZERO, feq, Reqb.
  destruct (Req_dec_T dd 0) as [Hz | Hnz];
    destruct (is_ccw (GM.motion_mode (gm (mach w)))); simpl;
    eexists; (split; [reflexivity |]); split; intros; try discriminate; lra.
Qed.

(** X8.  A full circle.  When the end vector [_compute_arc] computes,
    target minus offset minus position, is on both plane axes the very
    start vector, minus the offset, and the offsets are numbers that are
    not both zero, the two angles are the same, their difference is
    exactly zero, and the angular travel left is exactly [2 pi], or
    [-2 pi] in counterclockwise mode.  An arc that starts and ends at
    the origin of the plane axes is such a command. *)
Theorem compute_arc_full_circle (w : World Planner) (i j : R) :
  let a := arc (snd (arc_offsets_block w)) in
  fst (arc_offsets_block w) = STAT_OK ->
  Arc.offset a (Arc.plane_axis_0 a) = FNum i ->
  Arc.offset a (Arc.plane_axis_1 a) = FNum j ->
  i <> 0 \/ j <> 0 ->
  fsub (fsub (GM.target (Arc.gm a) (Arc.plane_axis_0 a))
             (Arc.offset a (Arc.plane_axis_0 a)))
       (Arc.position a (Arc.plane_axis_0 a))
  = fneg (Arc.offset a (Arc.plane_axis_0 a)) ->
  fsub (fsub (GM.target (Arc.gm a) (Arc.plane_axis_1 a))
             (Arc.offset a (Arc.plane_axis_1 a)))
       (Arc.position a (Arc.plane_axis_1 a))
  = fneg (Arc.offset a (Arc.plane_axis_1 a)) ->
  Arc.angular_travel (arc (snd (_compute_arc w)))
  = if is_ccw (GM.motion_mode (gm (mach w))) then fneg two_pi else two_pi.
Proof.
  intros a Hoff Hi Hj Hij He0 He1.
  destruct (_get_theta_defined (- i) (- j)) as (t & Ht); [lra |].
  assert (Hs : arc_start_theta a = FNum t).
  { unfold arc_start_theta. rewrite Hi, Hj. exact Ht. }
  assert (He : arc_end_theta a = FNum t).
  { unfold arc_end_theta. rewrite He0, He1. exact Hs. }
  rewrite (_compute_arc_travel w t t Hoff Hs He).
  unfold flt. rewrite (Rltb_false t t) by lra.
  assert (Hd : fsub (FNum t) (FNum t) = FNum 0) by (simpl; f_equal; ring).
  rewrite Hd, fp_ZERO_0, two_pi_num.
  destruct (is_ccw _); [simpl; f_equal; ring | reflexivity].
Qed.

End Travel.

(** X7 on the full-turn helix. *)
Lemma compute_arc_travel_range_witness :
  exists t,
    Arc.angular_travel (arc (snd (_compute_arc (E := demo) demo_world_helix)))
    = FNum t /\ 0 < t.
Proof.
  destruct helix_reached as (H1 & H2 & H3).
  destruct (compute_arc_travel_range (E := demo) demo_world_helix H1 H2 H3)
    as (t & Ht & Hcw & _).
  exists t. split; [exact Ht | apply Hcw; reflexivity].
Defined.

(** X8 on the full-turn helix, which starts and ends at the origin of the
    XY plane. *)
Lemma compute_arc_full_circle_witness :
  Arc.angular_travel (arc (snd (_compute_arc (E := demo) demo_world_helix)))
  = two_pi.
Proof.
  apply (compute_arc_full_circle (E := demo) demo_world_helix 0 5);
    rewrite ?helix_offsets; try reflexivity.
  - right. lra.
  - cbn [snd]. change (FNum (0 + - 0 + - 0) = FNum (- 0)). f_equal. lra.
  - cbn [snd]. change (FNum (0 + - 5 + - 0) = FNum (- 5)). f_equal. lra.
Defined.

(** ** The arc centre *)

Lemma sqrt_scaled (x a : R) :
  0 < a -> sqrt (x * x + a * a) = a * sqrt (1 + (x / a)²).
Proof.
  intros Ha.
  assert (Hs : 0 <= 1 + (x / a)²) by (pose proof (Rle_0_sqr (x / a)); lra).
  apply sqrt_lem_1.
  - nra.
  - apply Rmult_le_pos; [lra | apply sqrt_pos].
  - replace (a * sqrt (1 + (x / a)²) * (a * sqrt (1 + (x / a)²)))
      with (a * a * (sqrt (1 + (x / a)²) * sqrt (1 + (x / a)²))) by ring.
    rewrite sqrt_sqrt by exact Hs. unfold Rsqr. field. lra.
Qed.

Lemma atan_sin_cos_scaled (x a : R) :
  0 < a ->
  sin (atan (x / a)) * sqrt (x * x + a * a) = x
  /\ cos (atan (x / a)) * sqrt (x * x + a * a) = a.
Proof.
  intros Ha. rewrite sqrt_scaled by exact Ha. rewrite sin_atan, cos_atan.
  assert (Hs : 0 < sqrt (1 + (x / a)²)).
  { apply sqrt_lt_R0. pose proof (Rle_0_sqr (x / a)); lra. }
  split; field; lra.
Qed.

(** The angle [_get_theta] returns for a vector that is not zero points
    along that vector: its sine and cosine, scaled by the length of the
    vector, give the vector back. *)
Lemma _get_theta_sin_cos (x y : R) :
  x <> 0 \/ y <> 0 ->
  exists t,
    _get_theta (FNum x) (FNum y) = FNum t
    /\ sin t * sqrt (x * x + y * y) = x
    /\ cos t * sqrt (x * x + y * y) = y.
Proof.
  intros Hxy. pose proof PI_RGT_0 as HPI.
  unfold _get_theta, M_PI, fgt, flt. simpl.
  destruct (Rtotal_order y 0) as [Hy | [Hy | Hy]].
  - (* y < 0 *)
    rewrite (Reqb_false (Rabs y) 0) by (apply Rabs_no_R0; lra).
    rewrite (Rltb_false 0 y) by lra. simpl.
    rewrite (Rabs_left y) by exact Hy.
    destruct (atan_sin_cos_scaled x (- y)) as [Hsin Hcos]; [lra |].
    replace (x * x + - y * - y) with (x * x + y * y) in Hsin, Hcos by ring.
    destruct (Rltb 0 (atan (x / - y))); simpl; eexists;
      (split; [reflexivity |]).
    + replace (PI + - atan (x / - y)) with (PI - atan (x / - y)) by ring.
      rewrite sin_PI_x, cos_minus, cos_PI, sin_PI. split; [exact Hsin | nra].
    + replace (- PI + - atan (x / - y)) with (- (atan (x / - y) + PI)) by ring.
      rewrite sin_neg, cos_neg, neg_sin, neg_cos. split; nra.
  - (* y = 0 *)
    subst y. assert (Hx : x <> 0) by tauto.
    rewrite (Reqb_true (Rabs 0) 0) by apply Rabs_R0.
    rewrite (Reqb_false x 0) by exact Hx.
    rewrite (Rltb_false 0 0) by lra. simpl.
    destruct (Rtotal_order x 0) as [Hx0 | [Hx0 | Hx0]]; [| contradiction |].
    + rewrite (Rltb_true x 0) by exact Hx0.
      rewrite (Rltb_false 0 (- (PI / 2))) by lra. simpl. eexists.
      split; [reflexivity |].
      replace (- PI + - - (PI / 2)) with (- (PI / 2)) by field.
      rewrite sin_neg, cos_neg, sin_PI2, cos_PI2.
      replace (x * x + 0 * 0) with (- x * - x) by ring.
      rewrite sqrt_square by lra. split; ring.
    + rewrite (Rltb_false x 0) by lra.
      rewrite (Rltb_true 0 (PI / 2)) by lra. simpl. eexists.
      split; [reflexivity |].
      replace (PI + - (PI / 2)) with (PI / 2) by field.
      rewrite sin_PI2, cos_PI2.
      replace (x * x + 0 * 0) with (x * x) by ring.
      rewrite sqrt_square by lra. split; ring.
  - (* 0 < y *)
    rewrite (Reqb_false (Rabs y) 0) by (apply Rabs_no_R0; lra).
    rewrite (Rltb_true 0 y) by exact Hy. simpl.
    rewrite (Rabs_pos_eq y) by lra.
    eexists. split; [reflexivity |]. now apply atan_sin_cos_scaled.
Qed.

Section Centre.

Context {Planner : Type} {E : Collaborators Planner}.

Lemma arc_travel_block_axes (mode : cmMotionMode) (theta_end : float) (a : Arc.t) :
  let a' := arc_travel_block mode theta_end a in
  Arc.plane_axis_0 a' = Arc.plane_axis_0 a
  /\ Arc.plane_axis_1 a' = Arc.plane_axis_1 a
  /\ Arc.plane_axis_2 a' = Arc.plane_axis_2 a
  /\ Arc.arc_radius a' = Arc.arc_radius a.
Proof.
  unfold arc_travel_block. cbv zeta.
  destruct (fp_ZERO _), (is_ccw mode); repeat split.
Qed.

(** A successful [_compute_arc] went through every block. *)
Lemma _compute_arc_ok_inv (w : World Planner) :
  let w1 := snd (arc_offsets_block w) in
  let a1 := Arc.set_theta (arc_start_theta (arc w1)) (arc w1) in
  let a2 := arc_length_block
              (arc_travel_block (GM.motion_mode (gm (mach w1)))
                                (arc_end_theta a1) a1) in
  fst (_compute_arc w) = STAT_OK ->
  fst (arc_offsets_block w) = STAT_OK
  /\ isnan (arc_start_theta (arc w1)) = false
  /\ isnan (arc_end_theta (arc w1)) = false
  /\ snd (_compute_arc w)
     = set_arc (arc_runtime_block (arc_segments_block w1 a2)) w1.
Proof.
  intros w1 a1 a2 Hok.
  assert (Hoff : fst (arc_offsets_block w) = STAT_OK).
  { revert Hok. unfold _compute_arc, ritorno.
    destruct (fst (arc_offsets_block w)) eqn:Hf; trivial;
      intros H; change (fst (arc_offsets_block w) = STAT_OK) in H;
      rewrite Hf in H; discriminate. }
  destruct (isnan (arc_start_theta (arc w1))) eqn:Hth.
  { rewrite (_compute_arc_theta_nan w Hoff Hth) in Hok. discriminate. }
  destruct (isnan (arc_end_theta (arc w1))) eqn:Hte.
  { assert (Hs : fst (_compute_arc w) = STAT_ARC_SPECIFICATION_ERROR)
      by (apply (_compute_arc_specification_error_iff w Hoff); now right).
    rewrite Hs in Hok. discriminate. }
  split; [exact Hoff |]. split; [reflexivity |]. split; [reflexivity |].
  revert Hok. rewrite (_compute_arc_reached w Hoff Hth Hte). fold w1 a1 a2.
  destruct (flt _ _); [discriminate | reflexivity].
Qed.

(** X9.  The centre [_compute_arc] derives is the current position plus
    the offset.  On every successful run with offsets and a position that
    are numbers on the two plane axes, [center_0] and [center_1] are the
    position plus the offset on those axes, and [radius] is the length of
    the offset vector; so the current position lies on the circle. *)
Theorem compute_arc_centre (w : World Planner) (i j p0 p1 : R) :
  let a := arc (snd (arc_offsets_block w)) in
  let a' := arc (snd (_compute_arc w)) in
  fst (_compute_arc w) = STAT_OK ->
  Arc.offset a (Arc.plane_axis_0 a) = FNum i ->
  Arc.offset a (Arc.plane_axis_1 a) = FNum j ->
  Arc.position a (Arc.plane_axis_0 a) = FNum p0 ->
  Arc.position a (Arc.plane_axis_1 a) = FNum p1 ->
  Arc.center_0 a' = FNum (p0 + i)
  /\ Arc.center_1 a' = FNum (p1 + j)
  /\ Arc.radius a' = FNum (sqrt (i * i + j * j))
  /\ (i <> 0 \/ j <> 0).
Proof.
  intros a a' Hok Hi Hj Hp0 Hp1. subst a'.
  destruct (_compute_arc_ok_inv w Hok) as (Hoff & Hth & _ & ->).
  fold a in Hth |- *.
  assert (Hij : i <> 0 \/ j <> 0).
  { destruct (Req_dec_T i 0) as [Hi0 | Hi0]; [| now left].
    destruct (Req_dec_T j 0) as [Hj0 | Hj0]; [| now right].
    exfalso. revert Hth. unfold arc_start_theta. rewrite Hi, Hj. simpl.
    rewrite _get_theta_origin by lra. discriminate. }
  destruct (_get_theta_sin_cos (- i) (- j)) as (t & Ht & Hsin & Hcos); [lra |].
  replace (- i * - i + - j * - j) with (i * i + j * j) in Hsin, Hcos by ring.
  assert (Hstart : arc_start_theta a = FNum t).
  { unfold arc_start_theta. rewrite Hi, Hj. exact Ht. }
  set (a1 := Arc.set_theta (arc_start_theta a) a) in *.
  match goal with
  | |- context [arc_travel_block ?m ?te a1] =>
      set (at1 := arc_travel_block m te a1);
      destruct (arc_travel_block_frame m te a1) as (_ & Hft & Hfo & Hfp & _);
      destruct (arc_travel_block_axes m te a1) as (Hf0 & Hf1 & _);
      fold at1 in Hft, Hfo, Hfp, Hf0, Hf1
  end.
  change (arc (set_arc ?x ?y)) with x.
  assert (Hc0 : forall w1 b,
             Arc.center_0 (arc_runtime_block (arc_segments_block w1 (arc_length_block b)))
             = fsub (Arc.position b (Arc.plane_axis_0 b))
                    (fmul (fsin (Arc.theta b))
                          (hypot (Arc.offset b (Arc.plane_axis_0 b))
                                 (Arc.offset b (Arc.plane_axis_1 b)))))
    by reflexivity.
  assert (Hc1 : forall w1 b,
             Arc.center_1 (arc_runtime_block (arc_segments_block w1 (arc_length_block b)))
             = fsub (Arc.position b (Arc.plane_axis_1 b))
                    (fmul (fcos (Arc.theta b))
                          (hypot (Arc.offset b (Arc.plane_axis_0 b))
                                 (Arc.offset b (Arc.plane_axis_1 b)))))
    by reflexivity.
  assert (Hr : forall w1 b,
             Arc.radius (arc_runtime_block (arc_segments_block w1 (arc_length_block b)))
             = hypot (Arc.offset b (Arc.plane_axis_0 b))
                     (Arc.offset b (Arc.plane_axis_1 b)))
    by reflexivity.
  rewrite Hc0, Hc1, Hr, Hft, Hfo, Hfp, Hf0, Hf1.
  change (Arc.position a1) with (Arc.position a).
  change (Arc.offset a1) with (Arc.offset a).
  change (Arc.plane_axis_0 a1) with (Arc.plane_axis_0 a).
  change (Arc.plane_axis_1 a1) with (Arc.plane_axis_1 a).
  change (Arc.theta a1) with (arc_start_theta a).
  rewrite Hi, Hj, Hp0, Hp1, Hstart. simpl.
  repeat split; try exact Hij; f_equal; nra.
Qed.

End Centre.

(** X9 on the full-turn helix: the centre is [(0, 5)], the radius 5. *)
Lemma compute_arc_centre_witness :
  Arc.center_0 (arc (snd (_compute_arc (E := demo) demo_world_helix)))
  = FNum (0 + 0)
  /\ Arc.center_1 (arc (snd (_compute_arc (E := demo) demo_world_helix)))
     = FNum (0 + 5).
Proof.
  destruct (compute_arc_centre (E := demo) demo_world_helix 0 5 0 0 helix_ok)
    as (H0 & H1 & _); rewrite ?helix_offsets; try reflexivity.
  split; [exact H0 | exact H1].
Defined.

(** ** Radius mode: what the conversion does *)

Lemma fneg_involutive (a : float) : fneg (fneg a) = a.
Proof.
  destruct a as [| s | r]; simpl; [reflexivity | now rewrite Bool.negb_involutive |].
  f_equal. ring.
Qed.

Lemma square_opp (r : R) : square (FNum (- r)) = square (FNum r).
Proof. unfold square. simpl. f_equal. ring. Qed.

(** The value of the computed expression on numbers, and when it is NaN. *)
Lemma h_x2_div_d_computed_value (r x y : R) :
  0 < x * x + y * y ->
  h_x2_div_d_computed (FNum r) (FNum x) (FNum y)
  = if Rltb (4 * (r * r) + - (x * x + - (y * y))) 0
    then FNaN
    else FNum (- sqrt (4 * (r * r) + - (x * x + - (y * y)))
               / sqrt (x * x + y * y)).
Proof.
  intros Hc. unfold h_x2_div_d_computed, square. simpl.
  destruct (Rltb _ 0); simpl; [reflexivity |].
  now rewrite Reqb_false by (pose proof (sqrt_lt_R0 _ Hc); lra).
Qed.

Section RadiusMode.

Context {Planner : Type}.

(** X10.  What [_compute_arc_offsets_from_radius] never does: it returns
    [STAT_OK] or the floating point error; on the error the world is
    untouched; on success the machine and every field of the session
    other than [offset] keep their values, and [offset] changes on the
    three plane axes only. *)
Theorem offsets_from_radius_frame (w : World Planner) :
  let a := arc w in
  let r := _compute_arc_offsets_from_radius w in
  let a' := arc (snd r) in
  (fst r = STAT_OK \/ fst r = STAT_FLOATING_POINT_ERROR)
  /\ (fst r <> STAT_OK -> snd r = w)
  /\ mach (snd r) = mach w
  /\ (Arc.run_state a' = Arc.run_state a
      /\ Arc.position a' = Arc.position a
      /\ Arc.theta a' = Arc.theta a
      /\ Arc.radius a' = Arc.radius a
      /\ Arc.arc_radius a' = Arc.arc_radius a
      /\ Arc.angular_travel a' = Arc.angular_travel a
      /\ Arc.linear_travel a' = Arc.linear_travel a
      /\ Arc.length a' = Arc.length a
      /\ Arc.time a' = Arc.time a
      /\ Arc.plane_axis_0 a' = Arc.plane_axis_0 a
      /\ Arc.plane_axis_1 a' = Arc.plane_axis_1 a
      /\ Arc.plane_axis_2 a' = Arc.plane_axis_2 a
      /\ Arc.segments a' = Arc.segments a
      /\ Arc.segment_count a' = Arc.segment_count a
      /\ Arc.segment_theta a' = Arc.segment_theta a
      /\ Arc.segment_linear_travel a' = Arc.segment_linear_travel a
      /\ Arc.center_0 a' = Arc.center_0 a
      /\ Arc.center_1 a' = Arc.center_1 a
      /\ Arc.gm a' = Arc.gm a)
  /\ (forall k, k <> Arc.plane_axis_0 a -> k <> Arc.plane_axis_1 a ->
                k <> Arc.plane_axis_2 a -> Arc.offset a' k = Arc.offset a k).
Proof.
  intros a r a'. subst a r a'.
  unfold _compute_arc_offsets_from_radius. cbv zeta.
  destruct (isnan _).
  - cbn [fst snd]. split; [now right |]. split; [reflexivity |].
    split; [reflexivity |]. split; [repeat split | reflexivity].
  - cbn [fst snd]. split; [now left |]. split; [intros H; now elim H |].
    split; [reflexivity |]. split; [repeat split |].
    intros k H0 H1 H2. cbn.
    now rewrite !vset_other.
Qed.

(** X11.  The circle [_compute_arc_offsets_from_radius] picks.  When the
    chord [(x, y)] is a non-zero vector of numbers, the three plane axes
    are distinct and the call succeeds, the offsets written are numbers
    [(i, j, 0)] whose point is equally far from the current position and
    from the target, at the squared distance [r^2 + y^2/2]: the circle
    through both points has the radius asked for exactly when [y] is 0. *)
Theorem offsets_from_radius_geometry (w : World Planner) (r x y : R) :
  let a := arc w in
  let m := mach w in
  let res := _compute_arc_offsets_from_radius w in
  fsub (GM.target (gm m) (Arc.plane_axis_0 a))
       (GMX.position (gmx m) (Arc.plane_axis_0 a)) = FNum x ->
  fsub (GM.target (gm m) (Arc.plane_axis_1 a))
       (GMX.position (gmx m) (Arc.plane_axis_1 a)) = FNum y ->
  Arc.arc_radius a = FNum r ->
  x <> 0 \/ y <> 0 ->
  Arc.plane_axis_0 a <> Arc.plane_axis_1 a ->
  Arc.plane_axis_0 a <> Arc.plane_axis_2 a ->
  Arc.plane_axis_1 a <> Arc.plane_axis_2 a ->
  fst res = STAT_OK ->
  exists i j,
    Arc.offset (arc (snd res)) (Arc.plane_axis_0 a) = FNum i
    /\ Arc.offset (arc (snd res)) (Arc.plane_axis_1 a) = FNum j
    /\ Arc.offset (arc (snd res)) (Arc.plane_axis_2 a) = FNum 0
    /\ i * i + j * j = (x - i) * (x - i) + (y - j) * (y - j)
    /\ i * i + j * j = r * r + y * y / 2
    /\ (y = 0 -> i * i + j * j = r * r).
Proof.
  intros a m res Hx Hy Hr Hxy H01 H02 H12 Hok. subst res.
  assert (HS : 0 < x * x + y * y) by (destruct Hxy; nra).
  pose proof (h_x2_div_d_computed_value r x y HS) as Hh.
  revert Hok. unfold _compute_arc_offsets_from_radius. cbv zeta.
  fold a m. rewrite Hx, Hy, Hr.
  match goal with
  | |- context [if isnan ?e then _ else _] =>
      change e with (h_x2_div_d_computed (FNum r) (FNum x) (FNum y))
  end.
  rewrite Hh.
  destruct (Rltb (4 * (r * r) + - (x * x + - (y * y))) 0) eqn:HD;
    [cbn [isnan fst]; discriminate |].
  cbn [isnan fst snd]. intros _.
  assert (HD0 : 0 <= 4 * (r * r) + - (x * x + - (y * y))).
  { destruct (Rle_lt_dec 0 (4 * (r * r) + - (x * x + - (y * y)))) as [H | H];
      [exact H | now rewrite (Rltb_true _ _ H) in HD]. }
  set (D := 4 * (r * r) + - (x * x + - (y * y))) in *.
  set (S := x * x + y * y) in *.
  set (h := - sqrt D / sqrt S).
  assert (Hhh : h * h * S = D).
  { subst h. pose proof (sqrt_lt_R0 _ HS) as Hs.
    pose proof (sqrt_sqrt D HD0) as HDD. pose proof (sqrt_sqrt S (Rlt_le _ _ HS)) as HSS.
    replace (- sqrt D / sqrt S * (- sqrt D / sqrt S) * S)
      with (sqrt D * sqrt D * (S / (sqrt S * sqrt S))) by (field; lra).
    rewrite HDD, HSS. field. lra. }
  assert (Hgeo : forall k, k * k * S = D ->
             let i := (x + - (y * k)) / 2 in
             let j := (y + x * k) / 2 in
             i * i + j * j = (x - i) * (x - i) + (y - j) * (y - j)
             /\ i * i + j * j = r * r + y * y / 2
             /\ (y = 0 -> i * i + j * j = r * r)).
  { intros k Hk i j.
    assert (H1 : i * i + j * j = (S + k * k * S) / 4) by (subst i j S; field).
    assert (H2 : (x - i) * (x - i) + (y - j) * (y - j) = (S + k * k * S) / 4)
      by (subst i j S; field).
    rewrite H2, H1, Hk. subst D S.
    split; [reflexivity |]. split; [field |]. intros ->. field. }
  assert (Hneg : (- h) * (- h) * S = D) by (rewrite <- Hhh; ring).
  change (arc (set_arc ?b ?v)) with b. cbn [Arc.offset Arc.set_offset].
  rewrite vset_other by exact H02. rewrite vset_other by exact H01.
  rewrite vset_same.
  rewrite (vset_other _ _ (Arc.plane_axis_1 a)) by exact H12.
  rewrite vset_same.
  rewrite vset_same.
  destruct (is_ccw _), (flt (FNum r) (FNum 0)); simpl;
    rewrite ?Ropp_involutive; rewrite (Reqb_false 2 0) by lra;
    eexists; eexists;
    (split; [reflexivity |]); (split; [reflexivity |]);
    (split; [reflexivity |]);
    first [ exact (Hgeo h Hhh) | exact (Hgeo (- h) Hneg) ].
Qed.

(** X12.  A negative radius in counterclockwise mode gives the same centre
    as the positive radius of the same size in clockwise mode: the two
    changes of sign cancel.  For two states that differ only in the sign
    of [arc_radius] and in the motion mode, the status and the offsets
    after the conversion are the same. *)
Theorem offsets_from_radius_sign (w1 w2 : World Planner) (r : R) :
  GM.target (gm (mach w2)) = GM.target (gm (mach w1)) ->
  GMX.position (gmx (mach w2)) = GMX.position (gmx (mach w1)) ->
  Arc.plane_axis_0 (arc w2) = Arc.plane_axis_0 (arc w1) ->
  Arc.plane_axis_1 (arc w2) = Arc.plane_axis_1 (arc w1) ->
  Arc.plane_axis_2 (arc w2) = Arc.plane_axis_2 (arc w1) ->
  Arc.offset (arc w2) = Arc.offset (arc w1) ->
  0 < r ->
  Arc.arc_radius (arc w1) = FNum r ->
  Arc.arc_radius (arc w2) = FNum (- r) ->
  is_ccw (GM.motion_mode (gm (mach w1))) = false ->
  is_ccw (GM.motion_mode (gm (mach w2))) = true ->
  fst (_compute_arc_offsets_from_radius w2)
  = fst (_compute_arc_offsets_from_radius w1)
  /\ Arc.offset (arc (snd (_compute_arc_offsets_from_radius w2)))
     = Arc.offset (arc (snd (_compute_arc_offsets_from_radius w1))).
Proof.
  intros Ht Hp H0 H1 H2 Ho Hr Hr1 Hr2 Hm1 Hm2.
  unfold _compute_arc_offsets_from_radius. cbv zeta.
  change (arc (set_arc ?b ?v)) with b.
  cbn [Arc.offset Arc.set_offset Arc.plane_axis_0 Arc.plane_axis_1
       Arc.plane_axis_2].
  rewrite Ht, Hp, H0, H1, H2, Ho, Hr1, Hr2, Hm1, Hm2, square_opp.
  assert (Hn : flt (FNum (- r)) (FNum 0) = true) by (apply Rltb_true; lra).
  assert (Hq : flt (FNum r) (FNum 0) = false) by (apply Rltb_false; lra).
  rewrite Hn, Hq.
  destruct (isnan _).
  - cbn [fst snd]. split; [reflexivity | exact Ho].
  - cbn [fst snd]. split; [reflexivity |].
    rewrite fneg_involutive.
    change (arc (set_arc ?b ?v)) with b. reflexivity.
Qed.

End RadiusMode.

(** Radius mode succeeds when the computed discriminant is not negative
    and the chord is not zero. *)
Lemma offsets_from_radius_ok {Planner : Type} (w : World Planner) (r x y : R) :
  fsub (GM.target (gm (mach w)) (Arc.plane_axis_0 (arc w)))
       (GMX.position (gmx (mach w)) (Arc.plane_axis_0 (arc w))) = FNum x ->
  fsub (GM.target (gm (mach w)) (Arc.plane_axis_1 (arc w)))
       (GMX.position (gmx (mach w)) (Arc.plane_axis_1 (arc w))) = FNum y ->
  Arc.arc_radius (arc w) = FNum r ->
  0 <= 4 * (r * r) + - (x * x + - (y * y)) ->
  0 < x * x + y * y ->
  fst (_compute_arc_offsets_from_radius w) = STAT_OK.
Proof.
  intros Hx Hy Hr HD HS.
  rewrite offsets_from_radius_status. rewrite Hx, Hy, Hr.
  rewrite (h_x2_div_d_computed_value r x y HS).
  now rewrite Rltb_false by lra.
Qed.

(** X11 on a chord along the first plane axis: radius 5 from the origin to
    [(6, 0)]; the centre found is at distance 5 from the origin. *)
Lemma offsets_from_radius_geometry_witness :
  exists i j,
    Arc.offset (arc (snd (_compute_arc_offsets_from_radius (demo_world_radius 5 6 0))))
               AXIS_X = FNum i
    /\ Arc.offset (arc (snd (_compute_arc_offsets_from_radius (demo_world_radius 5 6 0))))
                  AXIS_Y = FNum j
    /\ i * i + j * j = 5 * 5.
Proof.
  assert (Hok : fst (_compute_arc_offsets_from_radius (demo_world_radius 5 6 0))
                = STAT_OK).
  { apply (offsets_from_radius_ok _ 5 (6 + - 0) (0 + - 0)); try reflexivity; lra. }
  destruct (offsets_from_radius_geometry (demo_world_radius 5 6 0) 5 (6 + - 0) (0 + - 0))
    as (i & j & Hi & Hj & _ & _ & _ & Hr); try reflexivity; try discriminate;
    try exact Hok.
  - left. lra.
  - exists i, j. split; [exact Hi |]. split; [exact Hj |]. apply Hr. lra.
Defined.

(** X12 on radius 1 clockwise against radius -1 counterclockwise, for the
    chord from the origin to [(0, 10)]. *)
Lemma offsets_from_radius_sign_witness :
  Arc.offset (arc (snd (_compute_arc_offsets_from_radius
                          (demo_world_radius_mode MOTION_MODE_CCW_ARC (Ropp 1) 0 10))))
  = Arc.offset (arc (snd (_compute_arc_offsets_from_radius
                            (demo_world_radius_mode MOTION_MODE_CW_ARC 1 0 10)))).
Proof.
  apply (offsets_from_radius_sign
           (demo_world_radius_mode MOTION_MODE_CW_ARC 1 0 10)
           (demo_world_radius_mode MOTION_MODE_CCW_ARC (Ropp 1) 0 10) 1);
    try reflexivity.
  lra.
Defined.

(** ** The segment count *)

Lemma Int_part_IZR (z : Z) : Int_part (IZR z) = z.
Proof.
  unfold Int_part.
  assert (H : (z + 1)%Z = up (IZR z)).
  { apply tech_up; rewrite plus_IZR; lra. }
  lia.
Qed.

(** The clamped floor is a whole number not below 1, or plus infinity. *)
Lemma fmax_floor_whole (q : float) :
  fmax (ffloor q) (FNum 1) = FInf false
  \/ exists z, (1 <= z)%Z /\ fmax (ffloor q) (FNum 1) = FNum (IZR z).
Proof.
  unfold fmax, fgt. destruct q as [| s | q]; simpl.
  - right. exists 1%Z. split; [lia | reflexivity].
  - destruct s; simpl; [| now left].
    right. exists 1%Z. split; [lia | reflexivity].
  - destruct (Rltb 1 (IZR (Int_part q))) eqn:H.
    + right. exists (Int_part q). split; [| reflexivity].
      apply Rltb_iff in H. apply lt_IZR in H. lia.
    + right. exists 1%Z. split; [lia | reflexivity].
Qed.

Lemma int32_of_whole (z : Z) :
  (1 <= z < 2147483648)%Z -> int32_of_float (FNum (IZR z)) = z.
Proof.
  intros Hz. unfold int32_of_float.
  rewrite Rltb_false by (intros C; apply lt_IZR in C; lia).
  rewrite Int_part_IZR. unfold wrap_int32. rewrite Z.mod_small by lia. lia.
Qed.

Section SegmentCount.

Context {Planner : Type} {E : Collaborators Planner}.

(** X13.  After a successful [_compute_arc] the number of segments is a
    whole number not below 1, or plus infinity; when it is a whole number
    below 2^31 the [int32_t] segment count is that number, so it is at
    least 1. *)
Theorem compute_arc_segment_count (w : World Planner) :
  let a' := arc (snd (_compute_arc w)) in
  fst (_compute_arc w) = STAT_OK ->
  Arc.segments a' = FInf false
  \/ exists z,
       (1 <= z)%Z
       /\ Arc.segments a' = FNum (IZR z)
       /\ ((z < 2147483648)%Z -> Arc.segment_count a' = z).
Proof.
  intros a' Hok. subst a'.
  destruct (_compute_arc_ok w Hok) as (w1 & a2 & _ & ->).
  change (arc (set_arc ?b ?v)) with b.
  set (a3 := arc_segments_block w1 a2).
  assert (Hc : Arc.segment_count (arc_runtime_block a3)
               = int32_of_float (Arc.segments (arc_runtime_block a3)))
    by reflexivity.
  assert (Hs : exists q, Arc.segments (arc_runtime_block a3)
                         = fmax (ffloor q) (FNum 1))
    by (eexists; reflexivity).
  destruct Hs as (q & Hs). rewrite Hc, Hs.
  destruct (fmax_floor_whole q) as [Hinf | (z & Hz & Hq)]; [now left |].
  right. exists z. split; [exact Hz |]. split; [exact Hq |].
  intros Hlt. rewrite Hq. apply int32_of_whole. lia.
Qed.

End SegmentCount.

(** X13 on the full-turn helix. *)
Lemma compute_arc_segment_count_witness :
  Arc.segments (arc (snd (_compute_arc (E := demo) demo_world_helix))) = FInf false
  \/ exists z,
       (1 <= z)%Z
       /\ Arc.segments (arc (snd (_compute_arc (E := demo) demo_world_helix)))
          = FNum (IZR z).
Proof.
  destruct (compute_arc_segment_count (E := demo) demo_world_helix helix_ok)
    as [H | (z & Hz & Hs & _)]; [now left |].
  right. exists z. split; [exact Hz | exact Hs].
Defined.

(** ** What [cm_arc_feed] leaves behind *)

Section Feed.

Context {Planner : Type} {E : Collaborators Planner}.

(** The offsets block keeps the plane and the position. *)
Lemma arc_offsets_block_plane (w : World Planner) :
  let a' := arc (snd (arc_offsets_block w)) in
  Arc.plane_axis_0 a' = Arc.plane_axis_0 (arc w)
  /\ Arc.plane_axis_1 a' = Arc.plane_axis_1 (arc w)
  /\ Arc.plane_axis_2 a' = Arc.plane_axis_2 (arc w)
  /\ Arc.position a' = Arc.position (arc w).
Proof.
  unfold arc_offsets_block, _compute_arc_offsets_from_radius.
  destruct (fp_NOT_ZERO _); [| repeat split].
  cbv zeta. destruct (isnan _); repeat split.
Qed.

(** [_compute_arc] keeps the plane and the position. *)
Lemma _compute_arc_plane (w : World Planner) :
  let a' := arc (snd (_compute_arc w)) in
  Arc.plane_axis_0 a' = Arc.plane_axis_0 (arc w)
  /\ Arc.plane_axis_1 a' = Arc.plane_axis_1 (arc w)
  /\ Arc.plane_axis_2 a' = Arc.plane_axis_2 (arc w)
  /\ Arc.position a' = Arc.position (arc w).
Proof.
  destruct (arc_offsets_block_plane w) as (H0 & H1 & H2 & Hp).
  unfold _compute_arc, ritorno.
  destruct (fst (arc_offsets_block w));
    try (split; [exact H0 |]; split; [exact H1 |]; split; [exact H2 | exact Hp]).
  cbv zeta.
  repeat match goal with
  | |- context [if ?c then _ else _] => destruct c
  end;
  try (split; [exact H0 |]; split; [exact H1 |]; split; [exact H2 | exact Hp]);
  match goal with
  | |- context [arc_travel_block ?m ?te ?a] =>
      destruct (arc_travel_block_axes m te a) as (T0 & T1 & T2 & _);
      destruct (arc_travel_block_frame m te a) as (_ & _ & _ & Tp & _);
      split; [change (Arc.plane_axis_0 (arc_travel_block m te a)
                      = Arc.plane_axis_0 (arc w)); rewrite T0; exact H0 |];
      split; [change (Arc.plane_axis_1 (arc_travel_block m te a)
                      = Arc.plane_axis_1 (arc w)); rewrite T1; exact H1 |];
      split; [change (Arc.plane_axis_2 (arc_travel_block m te a)
                      = Arc.plane_axis_2 (arc w)); rewrite T2; exact H2 |];
      change (Arc.position (arc_travel_block m te a) = Arc.position (arc w));
      rewrite Tp; exact Hp
  end.
Qed.

(** The three axes of a plane are different axes. *)
Lemma plane_axes_differ (p : cmCanonicalPlane) (a0 a1 a2 : nat) :
  (a0, a1, a2)
  = match p with
    | CANON_PLANE_XY => (AXIS_X, AXIS_Y, AXIS_Z)
    | CANON_PLANE_XZ => (AXIS_X, AXIS_Z, AXIS_Y)
    | CANON_PLANE_YZ => (AXIS_Y, AXIS_Z, AXIS_X)
    end ->
  a0 <> a1 /\ a0 <> a2 /\ a1 <> a2.
Proof.
  intros H. destruct p; injection H as -> -> ->;
    unfold AXIS_X, AXIS_Y, AXIS_Z; repeat split; discriminate.
Qed.

(** The plane and the position the setup block writes. *)
Lemma arc_feed_setup_plane (target flags : vec) (i j k radius : float)
    (motion_mode : cmMotionMode) (w : World Planner) :
  let w0 := arc_feed_setup target flags i j k radius motion_mode w in
  (Arc.plane_axis_0 (arc w0), Arc.plane_axis_1 (arc w0), Arc.plane_axis_2 (arc w0))
  = match GM.select_plane (gm (mach w0)) with
    | CANON_PLANE_XY => (AXIS_X, AXIS_Y, AXIS_Z)
    | CANON_PLANE_XZ => (AXIS_X, AXIS_Z, AXIS_Y)
    | CANON_PLANE_YZ => (AXIS_Y, AXIS_Z, AXIS_X)
    end
  /\ Arc.position (arc w0) = GMX.position (gmx (mach w0)).
Proof.
  unfold arc_feed_setup. cbv zeta.
  change (mach (mkWorld ?a ?m)) with m. change (arc (mkWorld ?a ?m)) with a.
  destruct (GM.select_plane _); split; reflexivity.
Qed.

(** X14.  The plane of the session [cm_arc_feed] leaves.  A call either
    leaves the world as it was (one of the two traps), or it leaves a
    session, accepted or rejected, whose three plane axes are the ones of
    the selected plane of the Gcode model, (X, Y, Z) for G17, (X, Z, Y)
    for G18 and (Y, Z, X) for G19, so three different axes, and whose
    position is the position of the Gcode model. *)
Theorem cm_arc_feed_plane (target flags : vec) (i j k radius : float)
    (motion_mode : cmMotionMode) (w : World Planner) :
  let r := cm_arc_feed target flags i j k radius motion_mode w in
  let w0 := arc_feed_setup target flags i j k radius motion_mode w in
  let a' := arc (snd r) in
  snd r = w
  \/ ((Arc.plane_axis_0 a', Arc.plane_axis_1 a', Arc.plane_axis_2 a')
      = match GM.select_plane (gm (mach w0)) with
        | CANON_PLANE_XY => (AXIS_X, AXIS_Y, AXIS_Z)
        | CANON_PLANE_XZ => (AXIS_X, AXIS_Z, AXIS_Y)
        | CANON_PLANE_YZ => (AXIS_Y, AXIS_Z, AXIS_X)
        end
      /\ Arc.plane_axis_0 a' <> Arc.plane_axis_1 a'
      /\ Arc.plane_axis_0 a' <> Arc.plane_axis_2 a'
      /\ Arc.plane_axis_1 a' <> Arc.plane_axis_2 a'
      /\ Arc.position a' = GMX.position (gmx (mach w0))).
Proof.
  intros r w0 a'.
  destruct (arc_feed_setup_plane target flags i j k radius motion_mode w)
    as [Hs Hsp]. fold w0 in Hs, Hsp.
  destruct (_compute_arc_plane w0) as (C0 & C1 & C2 & Cp).
  assert (Hc : forall a : Arc.t,
             Arc.plane_axis_0 a = Arc.plane_axis_0 (arc (snd (_compute_arc w0))) ->
             Arc.plane_axis_1 a = Arc.plane_axis_1 (arc (snd (_compute_arc w0))) ->
             Arc.plane_axis_2 a = Arc.plane_axis_2 (arc (snd (_compute_arc w0))) ->
             Arc.position a = Arc.position (arc (snd (_compute_arc w0))) ->
             (Arc.plane_axis_0 a, Arc.plane_axis_1 a, Arc.plane_axis_2 a)
             = match GM.select_plane (gm (mach w0)) with
               | CANON_PLANE_XY => (AXIS_X, AXIS_Y, AXIS_Z)
               | CANON_PLANE_XZ => (AXIS_X, AXIS_Z, AXIS_Y)
               | CANON_PLANE_YZ => (AXIS_Y, AXIS_Z, AXIS_X)
               end
             /\ Arc.plane_axis_0 a <> Arc.plane_axis_1 a
             /\ Arc.plane_axis_0 a <> Arc.plane_axis_2 a
             /\ Arc.plane_axis_1 a <> Arc.plane_axis_2 a
             /\ Arc.position a = GMX.position (gmx (mach w0))).
  { intros a -> -> -> ->. rewrite C0, C1, C2, Cp, Hsp.
    split; [exact Hs |].
    destruct (plane_axes_differ _ _ _ _ Hs) as (D0 & D1 & D2).
    repeat split; assumption. }
  destruct (cm_arc_feed_cases target flags i j k radius motion_mode w)
    as [H | [H | [(_ & H) | [(_ & _ & H) | (_ & _ & _ & H)]]]];
    fold r w0 in H.
  - left. now rewrite H.
  - left. now rewrite H.
  - right. subst a'. rewrite H. now apply Hc.
  - right. subst a'. rewrite H. now apply Hc.
  - right. subst a'. rewrite H. now apply Hc.
Qed.

(** X15.  What a call of [cm_arc_feed] commits.  A call either leaves the
    world as it was (one of the two traps), or: when it is rejected, by
    [_compute_arc] or by the soft limit test, the world is the one
    [_compute_arc] left, whose machine is the one of the setup block, so
    the Gcode model already holds the target and the motion mode of the
    rejected arc and no cycle was started; when it is accepted, the
    session is the one [_compute_arc] left with [run_state] set, and the
    machine is the one of the setup block after [cm_cycle_start] and then
    [cm_conditional_set_model_position(STAT_OK)]. *)
Theorem cm_arc_feed_commit (target flags : vec) (i j k radius : float)
    (motion_mode : cmMotionMode) (w : World Planner) :
  let r := cm_arc_feed target flags i j k radius motion_mode w in
  let w0 := arc_feed_setup target flags i j k radius motion_mode w in
  let wc := snd (_compute_arc w0) in
  snd r = w
  \/ ((fst r <> STAT_OK -> snd r = wc /\ mach (snd r) = mach w0)
      /\ (fst r = STAT_OK ->
          arc (snd r) = Arc.set_run_state MOVE_STATE_RUN (arc wc)
          /\ mach (snd r)
             = cm_conditional_set_model_position STAT_OK
                 (cm_cycle_start (mach w0)))).
Proof.
  intros r w0 wc.
  destruct (_compute_arc_frame w0) as [Hm _]. fold wc in Hm.
  subst r. unfold cm_arc_feed.
  destruct (negb _ && fp_ZERO _); [now left |].
  destruct (_ && fp_ZERO _); [now left |].
  right. fold w0. unfold ritorno, _test_arc_soft_limits. cbn [fst snd]. fold wc.
  destruct (fst (_compute_arc w0)) eqn:Hst;
    try (split; [intros _; split; [reflexivity | exact Hm]
                | intros C; change (fst (_compute_arc w0) = STAT_OK) in C;
                  rewrite Hst in C; discriminate]).
  destruct (cm_test_soft_limits _ _) eqn:Hsoft;
    try (cbn [fst snd]; split; [intros _; split; [reflexivity | exact Hm]
                               | intros C; discriminate]).
  cbn [fst snd]. split; [intros C; now elim C |].
  intros _. split; [reflexivity |].
  change (cm_conditional_set_model_position STAT_OK (cm_cycle_start (mach wc))
          = cm_conditional_set_model_position STAT_OK (cm_cycle_start (mach w0))).
  now rewrite Hm.
Qed.

End Feed.

(** ** From [cm_arc_feed] to the last call of [cm_arc_callback] *)

Section Pipeline.

Context {Planner : Type} {E : Collaborators Planner}.

(** A call of [cm_arc_feed] that is not the no-motion command and returns
    [STAT_OK] went through [_compute_arc] and armed the session it left. *)
Lemma cm_arc_feed_accepted (target flags : vec) (i j k radius : float)
    (motion_mode : cmMotionMode) (w : World Planner) :
  let r := cm_arc_feed target flags i j k radius motion_mode w in
  let w0 := arc_feed_setup target flags i j k radius motion_mode w in
  (fp_ZERO i && fp_ZERO j && fp_ZERO k && fp_ZERO radius)
  && fp_ZERO (fadd (fadd (fadd (fadd (fadd (flags AXIS_X) (flags AXIS_Y))
                                     (flags AXIS_Z))
                               (flags AXIS_A))
                         (flags AXIS_B))
                   (flags AXIS_C)) = false ->
  fst r = STAT_OK ->
  fst (_compute_arc w0) = STAT_OK
  /\ arc (snd r) = Arc.set_run_state MOVE_STATE_RUN (arc (snd (_compute_arc w0))).
Proof.
  intros r w0 Ht. subst r. unfold cm_arc_feed.
  destruct (negb _ && fp_ZERO _); [discriminate |].
  rewrite Ht. fold w0. unfold ritorno, _test_arc_soft_limits. cbn [fst snd].
  destruct (fst (_compute_arc w0)) eqn:Hst;
    try (intros C; change (fst (_compute_arc w0) = STAT_OK) in C;
         rewrite Hst in C; discriminate).
  destruct (cm_test_soft_limits _ _); try (cbn [fst snd]; discriminate).
  intros _. split; reflexivity.
Qed.

(** X16.  An accepted arc is drawn in as many calls as it has segments.
    Take a planner that always has headroom and a call of [cm_arc_feed]
    that is not the no-motion command and returns [STAT_OK].  The number
    of segments of the session it leaves is plus infinity or a whole
    number [z >= 1]; when [z] is below 2^31, the next [z] calls of
    [cm_arc_callback] return [STAT_EAGAIN] [z - 1] times and then
    [STAT_OK], and leave the session off. *)
Theorem cm_arc_feed_then_callbacks (target flags : vec) (i j k radius : float)
    (motion_mode : cmMotionMode) (w : World Planner) :
  let r := cm_arc_feed target flags i j k radius motion_mode w in
  (forall m, (PLANNER_BUFFER_HEADROOM <= mp_get_planner_buffers_available m)%Z) ->
  (fp_ZERO i && fp_ZERO j && fp_ZERO k && fp_ZERO radius)
  && fp_ZERO (fadd (fadd (fadd (fadd (fadd (flags AXIS_X) (flags AXIS_Y))
                                     (flags AXIS_Z))
                               (flags AXIS_A))
                         (flags AXIS_B))
                   (flags AXIS_C)) = false ->
  fst r = STAT_OK ->
  Arc.segments (arc (snd r)) = FInf false
  \/ exists z,
       (1 <= z)%Z
       /\ Arc.segments (arc (snd r)) = FNum (IZR z)
       /\ ((z < 2147483648)%Z ->
           fst (cm_arc_callback_n (Z.to_nat z) (snd r))
           = repeat STAT_EAGAIN (Z.to_nat z - 1) ++ [STAT_OK]
           /\ Arc.run_state (arc (snd (cm_arc_callback_n (Z.to_nat z) (snd r))))
              = MOVE_STATE_OFF).
Proof.
  intros r Havail Ht Hok.
  destruct (cm_arc_feed_accepted target flags i j k radius motion_mode w Ht Hok)
    as [Hc Ha]. fold r in Ha.
  set (w0 := arc_feed_setup target flags i j k radius motion_mode w) in *.
  destruct (_compute_arc_ok w0 Hc) as (w1 & a2 & _ & Hsnd).
  rewrite Hsnd in Ha. change (arc (set_arc ?b ?v)) with b in Ha.
  set (a3 := arc_segments_block w1 a2) in Ha.
  assert (Hrun : Arc.run_state (arc (snd r)) <> MOVE_STATE_OFF)
    by (rewrite Ha; discriminate).
  assert (Hcnt : Arc.segment_count (arc (snd r))
                 = int32_of_float (Arc.segments (arc (snd r))))
    by (rewrite Ha; reflexivity).
  assert (Hs : exists q, Arc.segments (arc (snd r)) = fmax (ffloor q) (FNum 1))
    by (rewrite Ha; eexists; reflexivity).
  destruct Hs as (q & Hs). rewrite Hs in Hcnt |- *.
  destruct (fmax_floor_whole q) as [Hinf | (z & Hz & Hq)]; [now left |].
  right. exists z. split; [exact Hz |]. split; [exact Hq |].
  intros Hlt. rewrite Hq in Hcnt. rewrite int32_of_whole in Hcnt by lia.
  assert (Hn : Z.to_nat z = S (Z.to_nat z - 1)) by lia.
  rewrite Hn at 1 3.
  destruct (cm_arc_callback_n_run (Z.to_nat z - 1) (snd r) Havail Hrun)
    as (H1 & H2 & _); [lia | lia |].
  split; [exact H1 | exact H2].
Qed.

End Pipeline.

Lemma fed_offsets : arc_offsets_block demo_world_fed = (STAT_OK, demo_world_fed).
Proof. now apply arc_offsets_block_offset_mode. Qed.

Lemma fed_theta : arc_start_theta (arc demo_world_fed) = FNum (- PI).
Proof.
  change (arc_start_theta (arc demo_world_fed))
    with (_get_theta (FNum (- 0)) (FNum (- 5))).
  apply _get_theta_below; lra.
Qed.

Lemma fed_theta_end : arc_end_theta (arc demo_world_fed) = FNum (- PI).
Proof.
  change (arc_end_theta (arc demo_world_fed))
    with (_get_theta (FNum (0 + - 0 + - 0)) (FNum (0 + - 5 + - 0))).
  apply _get_theta_below; lra.
Qed.

Lemma fed_ok : fst (_compute_arc (E := demo_roomy) demo_world_fed) = STAT_OK.
Proof.
  apply (_compute_arc_long_helix (E := demo_roomy) demo_world_fed
           (10 + - 0) (1 / 10)).
  - now rewrite fed_offsets.
  - rewrite fed_offsets. cbn [snd]. now rewrite fed_theta.
  - rewrite fed_offsets. cbn [snd]. now rewrite fed_theta_end.
  - now rewrite fed_offsets.
  - now rewrite fed_offsets.
  - rewrite Rabs_pos_eq; lra.
Defined.

(** The helix command is accepted by the demo machine. *)
Lemma fed_accepted : fst demo_fed = STAT_OK.
Proof.
  unfold demo_fed, cm_arc_feed.
  assert (H100 : fp_ZERO (GM.feed_rate (gm (mach (demo_world 100)))) = false)
    by (apply Reqb_false; lra).
  assert (H5 : fp_ZERO (FNum 5) = false) by (apply Reqb_false; lra).
  rewrite H100, H5, !Bool.andb_false_r. cbn [andb].
  change (arc_feed_setup (vxyz 0 0 10) (vxyz 0 0 1) (FNum 0) (FNum 5) (FNum 0)
                         (FNum 0) MOTION_MODE_CW_ARC (demo_world 100))
    with demo_world_fed.
  unfold ritorno. rewrite fed_ok. reflexivity.
Defined.

(** X16 on the helix command given to the idle demo machine with the
    planner that is drained as fast as it is filled. *)
Lemma cm_arc_feed_then_callbacks_witness :
  fst demo_fed = STAT_OK
  /\ (Arc.segments (arc (snd demo_fed)) = FInf false
      \/ exists z,
           (1 <= z)%Z
           /\ Arc.segments (arc (snd demo_fed)) = FNum (IZR z)
           /\ ((z < 2147483648)%Z ->
               fst (cm_arc_callback_n (E := demo_roomy) (Z.to_nat z) (snd demo_fed))
               = repeat STAT_EAGAIN (Z.to_nat z - 1) ++ [STAT_OK]
               /\ Arc.run_state
                    (arc (snd (cm_arc_callback_n (E := demo_roomy)
                                                 (Z.to_nat z) (snd demo_fed))))
                  = MOVE_STATE_OFF)).
Proof.
  split; [exact fed_accepted |].
  apply (cm_arc_feed_then_callbacks (E := demo_roomy) (vxyz 0 0 10) (vxyz 0 0 1)
           (FNum 0) (FNum 5) (FNum 0) (FNum 0) MOTION_MODE_CW_ARC (demo_world 100)).
  - intros m. change (4 <= 28)%Z. lia.
  - assert (H5 : fp_ZERO (FNum 5) = false) by (apply Reqb_false; lra).
    rewrite H5, !Bool.andb_false_r. reflexivity.
  - exact fed_accepted.
Defined.

(** ** The magic numbers *)

Section Magic.

Context {Planner : Type} {E : Collaborators Planner}.

(** The two sentinels of a session, as a pair. *)
Local Abbreviation magic a := (Arc.magic_start a, Arc.magic_end a).

Lemma arc_travel_block_magic (mode : cmMotionMode) (theta_end : float) (a : Arc.t) :
  magic (arc_travel_block mode theta_end a) = magic a.
Proof.
  unfold arc_travel_block. cbv zeta.
  destruct (fp_ZERO _), (is_ccw mode); reflexivity.
Qed.

Lemma arc_offsets_block_magic (w : World Planner) :
  magic (arc (snd (arc_offsets_block w))) = magic (arc w).
Proof.
  unfold arc_offsets_block, _compute_arc_offsets_from_radius.
  destruct (fp_NOT_ZERO _); [| reflexivity].
  cbv zeta. destruct (isnan _); reflexivity.
Qed.

Lemma _compute_arc_magic (w : World Planner) :
  magic (arc (snd (_compute_arc w))) = magic (arc w).
Proof.
  pose proof (arc_offsets_block_magic w) as H.
  unfold _compute_arc, ritorno.
  destruct (fst (arc_offsets_block w)); try exact H.
  cbv zeta.
  repeat match goal with
  | |- context [if ?c then _ else _] => destruct c
  end; try exact H;
  match goal with
  | |- context [arc_travel_block ?m ?te ?a] =>
      change (magic (arc_travel_block m te a) = magic (arc w));
      rewrite (arc_travel_block_magic m te a); exact H
  end.
Qed.

Lemma arc_feed_setup_magic (target flags : vec) (i j k radius : float)
    (motion_mode : cmMotionMode) (w : World Planner) :
  magic (arc (arc_feed_setup target flags i j k radius motion_mode w))
  = magic (arc w).
Proof.
  unfold arc_feed_setup. cbv zeta. destruct (GM.select_plane _); reflexivity.
Qed.

Lemma cm_arc_feed_magic (target flags : vec) (i j k radius : float)
    (motion_mode : cmMotionMode) (w : World Planner) :
  magic (arc (snd (cm_arc_feed target flags i j k radius motion_mode w)))
  = magic (arc w).
Proof.
  pose proof (arc_feed_setup_magic target flags i j k radius motion_mode w) as Hs.
  pose proof (_compute_arc_magic
                (arc_feed_setup target flags i j k radius motion_mode w)) as Hc.
  rewrite Hs in Hc.
  destruct (cm_arc_feed_cases target flags i j k radius motion_mode w)
    as [H | [H | [(_ & H) | [(_ & _ & H) | (_ & _ & _ & H)]]]];
    rewrite H; try reflexivity; exact Hc.
Qed.

Lemma cm_arc_callback_magic (w : World Planner) :
  magic (arc (snd (cm_arc_callback w))) = magic (arc w).
Proof.
  unfold cm_arc_callback.
  destruct (Arc.run_state (arc w)); try reflexivity;
    (destruct (_ <? _)%Z; [reflexivity |]);
    cbv zeta;
    match goal with
    | |- context [if ?c then _ else _] => destruct c
    end; reflexivity.
Qed.

Lemma run_call_magic (c : arc_call) (w : World Planner) :
  magic (arc (run_call c w)) = magic (arc w).
Proof.
  destruct c; cbn [run_call].
  - apply cm_arc_feed_magic.
  - apply cm_arc_callback_magic.
  - reflexivity.
Qed.

(** X17.  The magic numbers are never written after [cm_arc_init].
    [cm_arc_init] sets [magic_start] and [magic_end] to [MAGICNUM] and
    changes nothing else; and after it, whatever calls of [cm_arc_feed],
    [cm_arc_callback] and [cm_abort_arc] follow, with whatever arguments
    and in whatever order, both are still [MAGICNUM]. *)
Theorem magic_numbers_kept (cs : list arc_call) (w : World Planner) :
  let w' := run_calls cs (cm_arc_init w) in
  Arc.magic_start (arc w') = MAGICNUM
  /\ Arc.magic_end (arc w') = MAGICNUM
  /\ mach (cm_arc_init w) = mach w
  /\ Arc.set_magic_end (Arc.magic_end (arc w))
       (Arc.set_magic_start (Arc.magic_start (arc w)) (arc (cm_arc_init w)))
     = arc w.
Proof.
  intros w'.
  assert (H : magic (arc w') = (MAGICNUM, MAGICNUM)).
  { subst w'.
    assert (H0 : magic (arc (cm_arc_init w)) = (MAGICNUM, MAGICNUM)) by reflexivity.
    revert H0. generalize (cm_arc_init w). induction cs as [| c cs IH]; intros v Hv.
    - exact Hv.
    - cbn [run_calls]. apply IH. now rewrite run_call_magic. }
  injection H as H1 H2.
  split; [exact H1 |]. split; [exact H2 |]. split; reflexivity.
Qed.

End Magic.
